(** * helpers.py: the MNIST loader and the few-shot class sampler

    A shallow embedding of [src/helpers.py].  The two functions of the module,
    [load_mnist] and [split_and_select_random_data] (with its local helper
    [get_random_labeled_examples]), are translated statement by statement.
    Python exceptions are values of [exn]; the library calls the module makes
    (numpy indexing, [random.sample], [gzip.open], [np.frombuffer],
    [to_categorical]) are modelled by the small functions of the first part. *)

From Stdlib Require Import ZArith Floats Uint63 Strings.Byte.
From Stdlib Require Import Ascii String.
From stdpp Require Import base ssreflect list gmap strings.

#[local] Set Warnings "-rewrite-rw".

(** ** Exceptions *)

Inductive exn : Set :=
  | FileNotFoundError   (* gzip.open on a path that does not exist *)
  | BadGzipFile         (* gzip: the stream does not decode *)
  | ValueError          (* random.sample, np.frombuffer, reshape, concatenate *)
  | IndexError.         (* numpy indexing, list indexing *)

Definition result (A : Type) : Type := (exn + A)%type.

Definition ok {A} (a : A) : result A := inr a.
Definition raise {A} (e : exn) : result A := inl e.

Definition rbind {A B} (m : result A) (k : A → result B) : result B :=
  match m with
  | inl e => inl e
  | inr a => k a
  end.

Notation "'let?' x ':=' m 'in' k" := (rbind m (fun x => k))
  (at level 10, x pattern, m at level 100, k at level 200).

(** ** numpy: the indexing operations the module uses *)

(** A two-dimensional label array of shape [(length rows, width)].  The width
    is kept apart from the rows, as numpy keeps [shape[1]] for an array with
    no row. *)
Record array2 : Type := Array2 { width : nat; rows : list (list Z) }.

Definition shape0 (y : array2) : nat := length (rows y).

(** [r[c]] for a row; rows of a numpy array all have [width] entries. *)
Definition entry (r : list Z) (c : nat) : Z := nth c r 0%Z.

(** [y[:, c]] *)
Definition column (c : nat) (y : array2) : result (list Z) :=
  if decide (c < width y) then ok ((λ r, entry r c) <$> rows y)
  else raise IndexError.

(** [y[:, cs]] for a list of column indices *)
Definition columns (cs : list nat) (y : array2) : result (list (list Z)) :=
  if decide (Forall (λ c, c < width y) cs)
  then ok ((λ r, entry r <$> cs) <$> rows y)
  else raise IndexError.

(** [a.sum(axis=1)] *)
Definition sum_row (r : list Z) : Z := foldr Z.add 0%Z r.
Definition sum_axis1 (a : list (list Z)) : list Z := sum_row <$> a.

(** [a == v] elementwise *)
Definition eq_scalar (v : Z) (a : list Z) : list bool := (λ z, Z.eqb z v) <$> a.

(** [~m] *)
Definition invert (m : list bool) : list bool := negb <$> m.

(** Selection of the rows at which the mask is true. *)
Fixpoint compress {X} (m : list bool) (a : list X) : list X :=
  match m, a with
  | b :: m', r :: a' => if b then r :: compress m' a' else compress m' a'
  | _, _ => []
  end.

(** [a[m]] and [a[m, :]] for a boolean mask: the mask must have one entry per
    row. *)
Definition mask_rows {X} (m : list bool) (a : list X) : result (list X) :=
  if decide (length m = length a) then ok (compress m a) else raise IndexError.

Definition mask_rows2 (m : list bool) (y : array2) : result array2 :=
  let? rs := mask_rows m (rows y) in ok (Array2 (width y) rs).

(** [a[idx]] for a list of row indices. *)
Definition take_rows {X} (idx : list nat) (a : list X) : result (list X) :=
  match mapM (λ i, a !! i) idx with
  | Some rs => ok rs
  | None => raise IndexError
  end.

Definition take_rows2 (idx : list nat) (y : array2) : result array2 :=
  let? rs := take_rows idx (rows y) in ok (Array2 (width y) rs).

(** [np.arange(n)] and [np.isin(a, idx)] *)
Definition arange (n : nat) : list nat := seq 0 n.
Definition isin (a idx : list nat) : list bool := (λ i, bool_decide (i ∈ idx)) <$> a.

(** [np.concatenate([a, b])] along the first axis; the other dimension must
    agree. *)
Definition concatenate2 (a b : array2) : result array2 :=
  if decide (width a = width b) then ok (Array2 (width a) (rows a ++ rows b))
  else raise ValueError.

(** ** random: [random.sample] over the process-wide generator *)

(** The generator is an explicit state.  [random_sample n k] stands for
    [random.sample(range(n), k)]. *)
Class Random : Type := {
  rng : Type;
  random_sample : nat → Z → rng → result (list nat * rng)
}.

(** What the library documents for [random.sample]: [k] distinct elements of
    the population, and [ValueError] when the sample is larger than the
    population or negative. *)
Definition sample_contract (R : Random) : Prop :=
  ∀ (n : nat) (k : Z) (g : rng),
    match random_sample n k g with
    | inl e => e = ValueError ∧ ¬ (0 ≤ k ≤ Z.of_nat n)%Z
    | inr (idx, _) =>
        (0 ≤ k ≤ Z.of_nat n)%Z ∧ length idx = Z.to_nat k ∧
        NoDup idx ∧ Forall (λ i, i < n) idx
    end.

(** Computations that draw from the generator and may raise. *)
Definition M `{Random} (A : Type) : Type := rng → result (A * rng).

Definition ret `{Random} {A} (a : A) : M A := λ g, ok (a, g).
Definition lift `{Random} {A} (m : result A) : M A :=
  λ g, match m with inl e => inl e | inr a => ok (a, g) end.
Definition bind `{Random} {A B} (m : M A) (k : A → M B) : M B :=
  λ g, match m g with
       | inl e => inl e
       | inr (a, g') => k a g'
       end.

Notation "'let*' x ':=' m 'in' k" := (bind m (fun x => k))
  (at level 10, x pattern, m at level 100, k at level 200).

(** ** The sampler of CPython's [random.sample] for small populations

    One instance of [Random]: the generator is a tape of raw draws and
    [randbelow n] reduces the next one modulo [n].  The loop is the pool loop
    of [random.sample]: the selected item is replaced in the pool by the last
    item that is still live. *)
Module PoolSampler.

Definition randbelow (n : nat) (g : list nat) : nat * list nat :=
  match g with
  | [] => (0, [])
  | r :: g' => (r mod n, g')
  end.

Fixpoint pool_draw {A} (pool : list A) (m k : nat) (g : list nat)
    : result (list A * list nat) :=
  match k with
  | 0 => ok ([], g)
  | S k' =>
      let '(j, g1) := randbelow m g in
      match pool !! j, pool !! (m - 1) with
      | Some x, Some last =>
          let? (rest, g2) := pool_draw (<[j := last]> pool) (m - 1) k' g1 in
          ok (x :: rest, g2)
      | _, _ => raise IndexError
      end
  end.

Definition sample {A} (population : list A) (k : Z) (g : list nat)
    : result (list A * list nat) :=
  if decide (0 ≤ k ≤ Z.of_nat (length population))%Z
  then pool_draw population (length population) (Z.to_nat k) g
  else raise ValueError.

#[export] Instance pool_random : Random :=
  {| rng := list nat; random_sample n k := sample (seq 0 n) k |}.

End PoolSampler.

(** ** [split_and_select_random_data] *)

Section Sampler.
Context `{R : Random}.
Context {X : Type}.   (* a row of the image array: 784 pixels or a 28x28x1 block *)

(** The seven arrays the function returns, under the names of its [return]. *)
Record split : Type := Split {
  x_target_labeled : list X;
  y_target : array2;
  x_test : list X;
  y_test : array2;
  x_target_unlabeled : list X;
  x_auxiliary : list X;
  y_auxiliary : array2
}.

Definition get_random_labeled_examples
    (x : list X) (y : array2) (c : nat) (num_labeled : Z)
    : M (list X * array2 * list X) :=
  (* subset data to that of class c *)
  let* col := lift (column c y) in
  let* x_c := lift (mask_rows (eq_scalar 1 col) x) in
  let* col' := lift (column c y) in
  let* y_c := lift (mask_rows2 (eq_scalar 1 col') y) in
  (* select num_labeled random examples *)
  let* idx := random_sample (length x_c) num_labeled in
  let* x_labeled := lift (take_rows idx x_c) in
  let* x_unlabeled := lift (mask_rows (invert (isin (arange (length x_c)) idx)) x_c) in
  let* labels := lift (take_rows2 idx y_c) in
  ret (x_labeled, labels, x_unlabeled).

(** The body of [for c in target_classes[1:]]. *)
Fixpoint select_loop (x_target_all : list X) (y_target_all : array2)
    (cs : list nat) (num_examples_per_class : Z)
    (acc : list X * array2 * list X) : M (list X * array2 * list X) :=
  match cs with
  | [] => ret acc
  | c :: cs' =>
      let '(x_target_labeled, y_target, x_target_unlabeled) := acc in
      let* (x_temp, y_temp, x_unlabeled_temp) :=
        get_random_labeled_examples x_target_all y_target_all c
          num_examples_per_class in
      let* y_target' := lift (concatenate2 y_target y_temp) in
      select_loop x_target_all y_target_all cs' num_examples_per_class
        (x_target_labeled ++ x_temp, y_target', x_target_unlabeled ++ x_unlabeled_temp)
  end.

Definition split_and_select_random_data
    (x : list X) (y : array2) (xtest : list X) (ytest : array2)
    (num_target_classes num_examples_per_class : Z) : M split :=
  (* select random classes *)
  let total_classes := width y in
  let* target_classes := random_sample total_classes num_target_classes in
  (* split the data based on these classes *)
  let* sel := lift (columns target_classes y) in
  let target_bools := eq_scalar 1 (sum_axis1 sel) in
  let* y_target_all := lift (mask_rows2 target_bools y) in
  let* x_target_all := lift (mask_rows target_bools x) in
  let* y_auxiliary := lift (mask_rows2 (invert target_bools) y) in
  let* x_auxiliary := lift (mask_rows (invert target_bools) x) in
  let* sel_test := lift (columns target_classes ytest) in
  let test_bools := eq_scalar 1 (sum_axis1 sel_test) in
  let* x_test := lift (mask_rows test_bools xtest) in
  let* y_test := lift (mask_rows2 test_bools ytest) in
  (* select random examples of target classes *)
  match target_classes with
  | [] => lift (raise IndexError)          (* target_classes[0] *)
  | c0 :: cs =>
      let* first :=
        get_random_labeled_examples x_target_all y_target_all c0
          num_examples_per_class in
      let* (x_target_labeled, y_target, x_target_unlabeled) :=
        select_loop x_target_all y_target_all cs num_examples_per_class first in
      ret (Split x_target_labeled y_target x_test y_test
             x_target_unlabeled x_auxiliary y_auxiliary)
  end.

End Sampler.

Arguments split : clear implicits.

(** ** [load_mnist] *)

(** An n-dimensional array: its shape and its items in row-major order. *)
Record ndarray (A : Type) : Type := NdArray { shape : list nat; data : list A }.
Arguments NdArray {A} _ _.
Arguments shape {A} _.
Arguments data {A} _.

(** [a.reshape(new_shape)] *)
Definition reshape {A} (new_shape : list nat) (a : ndarray A) : result (ndarray A) :=
  if decide (foldr Nat.mul 1 new_shape = length (data a))
  then ok (NdArray new_shape (data a))
  else raise ValueError.

(** [np.frombuffer(buf, dtype=np.uint8, offset=offset)]: the bytes after the
    offset, read as unsigned 8-bit integers. *)
Definition uint8 (b : byte) : Z := Z.of_N (Byte.to_N b).

Definition frombuffer (buf : list byte) (offset : nat) : result (ndarray Z) :=
  if decide (offset ≤ length buf)
  then ok (NdArray [length buf - offset] (uint8 <$> drop offset buf))
  else raise ValueError.

(** [len(a)] and [a.shape[0]] *)
Definition len {A} (a : ndarray A) : nat := hd 0 (shape a).

(** The image array is [uint8] as read, and [float64] once divided. *)
Inductive pixels : Type :=
  | UInt8 (a : ndarray Z)
  | Float64 (a : ndarray float).

Definition float_of_int (v : Z) : float := PrimFloat.of_uint63 (Uint63.of_Z v).

(** [images / d]: numpy's true division of an integer array by an integer,
    in binary64. *)
Definition true_divide (a : ndarray Z) (d : Z) : ndarray float :=
  NdArray (shape a) ((λ v, PrimFloat.div (float_of_int v) (float_of_int d)) <$> data a).

Definition reshape_pixels (new_shape : list nat) (p : pixels) : result pixels :=
  match p with
  | UInt8 a => let? a' := reshape new_shape a in ok (UInt8 a')
  | Float64 a => let? a' := reshape new_shape a in ok (Float64 a')
  end.

Definition pixels_shape (p : pixels) : list nat :=
  match p with UInt8 a => shape a | Float64 a => shape a end.

(** The labels are class indices as read, and one-hot rows once encoded. *)
Inductive labels_array : Type :=
  | ClassIndices (a : ndarray Z)
  | OneHot (y : array2).

(** Row [c] of [to_categorical]: zeros, and a one at column [c]. *)
Definition to_categorical_row (num_classes c : nat) : list Z :=
  (λ j, if decide (j = c) then 1%Z else 0%Z) <$> seq 0 num_classes.

(** [keras.utils.to_categorical(labels, num_classes)]: the assignment
    [categorical[np.arange(n), y] = 1] raises for an index out of the
    columns, and counts a negative index from the end. *)
Definition column_index (num_classes : nat) (l : Z) : option nat :=
  if decide (0 ≤ l < Z.of_nat num_classes)%Z then Some (Z.to_nat l)
  else if decide (- Z.of_nat num_classes ≤ l < 0)%Z
       then Some (Z.to_nat (l + Z.of_nat num_classes))
       else None.

Definition to_categorical (labels : ndarray Z) (num_classes : nat) : result array2 :=
  match mapM (column_index num_classes) (data labels) with
  | Some cs => ok (Array2 num_classes (to_categorical_row num_classes <$> cs))
  | None => raise IndexError
  end.

(** [os.path.join(a, b)] on a POSIX system. *)
Fixpoint endswith_sep (s : string) : bool :=
  match s with
  | EmptyString => false
  | String c EmptyString => Ascii.eqb c "/"%char
  | String _ s' => endswith_sep s'
  end.

Definition os_path_join (a b : string) : string :=
  if String.prefix "/" b then b
  else if String.eqb a "" || endswith_sep a then a +:+ b
  else a +:+ "/" +:+ b.

Definition labels_path (path kind : string) : string :=
  os_path_join path (kind +:+ "-labels-idx1-ubyte.gz").
Definition images_path (path kind : string) : string :=
  os_path_join path (kind +:+ "-images-idx3-ubyte.gz").

Section Loader.
(** The files on disk, by path, and the gzip decoder: [None] for a stream
    that is not valid gzip. *)
Context (fs : gmap string (list byte)).
Context (gunzip : list byte → option (list byte)).

(** [with gzip.open(p, 'rb') as f: f.read()] *)
Definition gzip_read (p : string) : result (list byte) :=
  match fs !! p with
  | None => raise FileNotFoundError
  | Some raw =>
      match gunzip raw with
      | None => raise BadGzipFile
      | Some buf => ok buf
      end
  end.

Definition load_mnist (path kind : string)
    (normalize return_4d_tensor one_hot : bool) : result (pixels * labels_array) :=
  let? lbuf := gzip_read (labels_path path kind) in
  let? labels := frombuffer lbuf 8 in
  let? ibuf := gzip_read (images_path path kind) in
  let? flat := frombuffer ibuf 16 in
  let? images := reshape [len labels; 784] flat in
  let images := if normalize then Float64 (true_divide images 255) else UInt8 images in
  let? images :=
    if return_4d_tensor
    then reshape_pixels [hd 0 (pixels_shape images); 28; 28; 1] images
    else ok images in
  let? labels :=
    if one_hot
    then (let? y := to_categorical labels 10 in ok (OneHot y))   (* 10 classes in MNIST *)
    else ok (ClassIndices labels) in
  ok (images, labels).

End Loader.

(** ** The vocabulary of the specification *)

(** A row is a target row when its entries at the selected columns sum to one
    (the test of [target_bools] and of [test_bools]). *)
Definition is_target (cs : list nat) (r : list Z) : Prop :=
  sum_row (entry r <$> cs) = 1%Z.

#[global] Instance is_target_dec cs r : Decision (is_target cs r) :=
  Z.eq_dec (sum_row (entry r <$> cs)) 1%Z.

(** The rows of a data set, each image with its label row. *)
Definition target_rows {X} (cs : list nat) (x : list X) (y : array2)
    : list (X * list Z) :=
  filter (λ p, is_target cs p.2) (zip x (rows y)).

Definition auxiliary_rows {X} (cs : list nat) (x : list X) (y : array2)
    : list (X * list Z) :=
  filter (λ p, ¬ is_target cs p.2) (zip x (rows y)).

(** The target rows of class [c]: those with a one at column [c]. *)
Definition class_rows {X} (c : nat) (cs : list nat) (x : list X) (y : array2)
    : list (X * list Z) :=
  filter (λ p, entry p.2 c = 1%Z) (target_rows cs x y).

(** Valid one-hot labels: every row is one of the [width] rows that hold a
    single one and zeros elsewhere. *)
Definition one_hot_row (w : nat) (r : list Z) : Prop :=
  r ∈ (to_categorical_row w <$> seq 0 w).

#[global] Instance one_hot_row_dec w r : Decision (one_hot_row w r).
Proof. unfold one_hot_row. apply _. Defined.

Definition one_hot (y : array2) : Prop := Forall (one_hot_row (width y)) (rows y).

#[global] Instance one_hot_dec y : Decision (one_hot y).
Proof. unfold one_hot. apply _. Defined.

(** The rows labelled with class [c], and with one of the classes [cs]. *)
Definition rows_of_class {X} (c : nat) (x : list X) (y : array2)
    : list (X * list Z) :=
  filter (λ p, p.2 = to_categorical_row (width y) c) (zip x (rows y)).

Definition rows_of_classes {X} (cs : list nat) (x : list X) (y : array2)
    : list (X * list Z) :=
  filter (λ p, p.2 ∈ (to_categorical_row (width y) <$> cs)) (zip x (rows y)).

(** ** The structure of a call *)

Section SplitVocabulary.
Context `{R : Random} {X : Type}.
Implicit Types (x : list X) (y : array2).

(** The rows of [x], [y] with a one at column [c], as image-label pairs. *)
Definition with_column_one (c : nat) x (ys : list (list Z)) : list (X * list Z) :=
  filter (λ p, entry p.2 c = 1%Z) (zip x ys).

(** One class's share of the output: the pairs drawn ([p.1], in the order
    drawn) and the other pairs of the class ([p.2]). *)
Definition piece_of (c : nat) (k : Z) x y
    (p : list (X * list Z) * list (X * list Z)) : Prop :=
  p.1 ++ p.2 ≡ₚ with_column_one c x (rows y) ∧ length p.1 = Z.to_nat k.

(** The code after the draw of the classes [cs], with the masks written as
    filters ([split_and_select_random_data_run] below shows it is the
    code). *)
Definition after_draw (cs : list nat) x y xtest ytest (k : Z) : M (split X) :=
  let tr := target_rows cs x y in
  match cs with
  | [] => lift (raise IndexError)
  | c0 :: cs' =>
      let* first :=
        get_random_labeled_examples tr.*1 (Array2 (width y) tr.*2) c0 k in
      let* (xl, yl, xu) :=
        select_loop tr.*1 (Array2 (width y) tr.*2) cs' k first in
      ret (Split xl yl
             (target_rows cs xtest ytest).*1
             (Array2 (width ytest) (target_rows cs xtest ytest).*2)
             xu
             (auxiliary_rows cs x y).*1
             (Array2 (width y) (auxiliary_rows cs x y).*2))
  end.

(** What a returning call returned, given the classes [cs] it drew and, for
    each class, the pairs it drew and the pairs it left. *)
Definition split_of (cs : list nat) (k : Z)
    (pieces : list (list (X * list Z) * list (X * list Z)))
    x y xtest ytest (out : split X) : Prop :=
  Forall2 (λ c p, p.1 ++ p.2 ≡ₚ class_rows c cs x y ∧ length p.1 = Z.to_nat k)
    cs pieces ∧
  x_target_labeled out = (concat pieces.*1).*1 ∧
  y_target out = Array2 (width y) (concat pieces.*1).*2 ∧
  x_target_unlabeled out = (concat pieces.*2).*1 ∧
  x_auxiliary out = (auxiliary_rows cs x y).*1 ∧
  y_auxiliary out = Array2 (width y) (auxiliary_rows cs x y).*2 ∧
  x_test out = (target_rows cs xtest ytest).*1 ∧
  y_test out = Array2 (width ytest) (target_rows cs xtest ytest).*2.

End SplitVocabulary.


(** The error kinds of the specification. *)
Definition sampling_error (e : exn) : Prop := e = ValueError.
Definition file_or_decode_error (e : exn) : Prop :=
  e = FileNotFoundError ∨ e = BadGzipFile ∨ e = ValueError.

(** ** A scenario

    The scenario of the specification: ten classes, a hundred training rows
    with ten rows per class, and dummy images (the row numbers).  The
    generator is the pool sampler on a fixed tape of draws. *)
Module Scenario.

Definition train_images : list nat := seq 0 100.
Definition train_labels : array2 :=
  Array2 10 ((λ i, to_categorical_row 10 (i mod 10)) <$> seq 0 100).

Definition test_images : list nat := seq 100 20.
Definition test_labels : array2 :=
  Array2 10 ((λ i, to_categorical_row 10 (i mod 10)) <$> seq 100 20).

Definition tape : list nat := [7; 3; 12; 5; 0; 9; 4; 1; 8].

(** A call on the test set of the scenario, with the tape as generator. *)
Definition run_split (x : list nat) (y : array2) (ntc k : Z)
    : result (split nat * list nat) :=
  split_and_select_random_data (R := PoolSampler.pool_random)
    x y test_images test_labels ntc k tape.

Definition train_images_multi : list nat := train_images ++ [100].

(** Files for the loader: two labels (3 and 9), and two images, one of bytes
    255 and one of bytes 0.  The stand-in decoder takes the two magic bytes
    of gzip off a stream and refuses a stream without them. *)
Definition magic : list byte := [x1f; x8b].

Definition gunzip (raw : list byte) : option (list byte) :=
  match raw with
  | x1f :: x8b :: buf => Some buf
  | _ => None
  end.

Definition labels_file : list byte := magic ++ replicate 8 x00 ++ [x03; x09].
Definition images_file : list byte :=
  magic ++ replicate 16 x00 ++ replicate 784 xff ++ replicate 784 x00.
Definition short_images_file : list byte :=
  magic ++ replicate 16 x00 ++ replicate 784 xff.

Definition files : gmap string (list byte) :=
  {[ "data/train-labels-idx1-ubyte.gz" := labels_file;
     "data/train-images-idx3-ubyte.gz" := images_file ]}.

Definition short_files : gmap string (list byte) :=
  {[ "data/train-labels-idx1-ubyte.gz" := labels_file;
     "data/train-images-idx3-ubyte.gz" := short_images_file ]}.

End Scenario.

(** ** The draws of a call *)

(** [a[~np.isin(np.arange(len(a)), idx)]]: the rows of [a] at the positions
    that were not drawn. *)
Definition not_drawn {A} (idx : list nat) (a : list A) : list A :=
  compress (invert (isin (arange (length a)) idx)) a.

(** The share [p] of a class in the output when the positions [idx] were
    drawn among the rows [l] of the class: [p.1] holds the rows at the drawn
    positions, in the order drawn, and [p.2] the other rows. *)
Definition drawn_at {A} (k : Z) (l : list A) (idx : list nat)
    (p : list A * list A) : Prop :=
  NoDup idx ∧ length idx = Z.to_nat k ∧
  take_rows idx l = ok p.1 ∧ p.2 = not_drawn idx l.

(** ** Sizes of the loaded arrays *)

(** [images.size], and [len(labels)] for either encoding of the labels. *)
Definition pixels_size (p : pixels) : nat :=
  match p with UInt8 a => length (data a) | Float64 a => length (data a) end.

Definition labels_len (l : labels_array) : nat :=
  match l with ClassIndices a => len a | OneHot y => shape0 y end.

(** [a[i]]: the [i]-th item along the first axis, and the items of an array
    along its first axis, which are the rows a mask on the first axis selects
    from. *)
Definition item_at {A} (a : ndarray A) (i : nat) : ndarray A :=
  let size := foldr Nat.mul 1 (tail (shape a)) in
  NdArray (tail (shape a)) (take size (drop (i * size) (data a))).

Definition first_axis {A} (a : ndarray A) : list (ndarray A) :=
  item_at a <$> seq 0 (len a).

(** The images of a loaded array, as the rows the sampler selects from. *)
Definition image_rows (p : pixels) : list pixels :=
  match p with
  | UInt8 a => UInt8 <$> first_axis a
  | Float64 a => Float64 <$> first_axis a
  end.

(** ** More of the scenario *)
Module Scenario2.
Import Scenario.

(** The training set with one more row, whose entries sum to one at any
    columns that hold both its 2 and its -1, with no one among them. *)
Definition odd_row : list Z := [0; 0; 0; -1; 0; 0; 0; 2; 0; 0]%Z.
Definition train_images_odd : list nat := train_images ++ [100].
Definition train_labels_odd : array2 :=
  Array2 10 (rows train_labels ++ [odd_row]).

(** A second test set: a single row of class 3. *)
Definition other_test_images : list nat := [500].
Definition other_test_labels : array2 := Array2 10 [to_categorical_row 10 3].

(** A label file with the label 10, a label file cut inside its header, and
    the files of a training and a test split. *)
Definition bad_labels_file : list byte := magic ++ replicate 8 x00 ++ [x03; x0a].
Definition cut_labels_file : list byte := magic ++ replicate 5 x00.

Definition bad_label_files : gmap string (list byte) :=
  {[ "data/train-labels-idx1-ubyte.gz" := bad_labels_file;
     "data/train-images-idx3-ubyte.gz" := images_file ]}.

Definition cut_files : gmap string (list byte) :=
  {[ "data/train-labels-idx1-ubyte.gz" := cut_labels_file;
     "data/train-images-idx3-ubyte.gz" := images_file ]}.

Definition cut_images_file : list byte := magic ++ replicate 10 x00.
Definition cut_image_files : gmap string (list byte) :=
  {[ "data/train-labels-idx1-ubyte.gz" := labels_file;
     "data/train-images-idx3-ubyte.gz" := cut_images_file ]}.


Definition test_labels_file : list byte := magic ++ replicate 8 x00 ++ [x03].
Definition test_images_file : list byte :=
  magic ++ replicate 16 x00 ++ replicate 784 x80.

Definition both_files : gmap string (list byte) :=
  {[ "data/train-labels-idx1-ubyte.gz" := labels_file;
     "data/train-images-idx3-ubyte.gz" := images_file;
     "data/test-labels-idx1-ubyte.gz" := test_labels_file;
     "data/test-images-idx3-ubyte.gz" := test_images_file ]}.

End Scenario2.

(** * Properties *)

(** ** Masks and index lists *)

Section NumpyFacts.
Context {A B : Type}.
Implicit Types (m : list bool) (a : list A) (idx : list nat).

Lemma compress_fmap (f : A → B) m a :
  compress m (f <$> a) = f <$> compress m a.
Proof.
  revert a. induction m as [|b m IH]; intros [|r a]; csimpl; try done.
  destruct b; csimpl; by rewrite IH.
Qed.

Lemma compress_filter (P : A → Prop) `{∀ r, Decision (P r)} a :
  compress ((λ r, bool_decide (P r)) <$> a) a = filter P a.
Proof.
  induction a as [|r a IH]; [done|]. csimpl. rewrite IH.
  rewrite filter_cons. case_bool_decide; [rewrite decide_True|rewrite decide_False]; done.
Qed.

Lemma compress_invert_filter (P : A → Prop) `{∀ r, Decision (P r)} a :
  compress (invert ((λ r, bool_decide (P r)) <$> a)) a = filter (λ r, ¬ P r) a.
Proof.
  induction a as [|r a IH]; [done|]. unfold invert in *. csimpl. rewrite IH.
  rewrite filter_cons. case_bool_decide; [rewrite decide_False|rewrite decide_True]; naive_solver.
Qed.

Lemma compress_all_true a : compress (replicate (length a) true) a = a.
Proof. induction a; simpl; congruence. Qed.

(** Clearing one bit of the mask removes that row from the selection. *)
Lemma compress_clear_bit m a i r :
  m !! i = Some true → a !! i = Some r →
  compress m a ≡ₚ r :: compress (<[i := false]> m) a.
Proof.
  revert a i. induction m as [|b m IH]; intros [|r' a] [|i] Hm Ha;
    simplify_eq/=; try done.
  destruct b; simpl; rewrite (IH a i) //. apply Permutation_swap.
Qed.

Lemma take_rows_ok idx a rs :
  take_rows idx a = ok rs ↔ Forall2 (λ i r, a !! i = Some r) idx rs.
Proof.
  unfold take_rows. rewrite <- mapM_Some.
  destruct (mapM _ idx); split; intros; simplify_eq; done.
Qed.

Lemma take_rows_in_range idx a :
  Forall (λ i, i < length a) idx → ∃ rs, take_rows idx a = ok rs.
Proof.
  intros Hidx. unfold take_rows.
  destruct (mapM (λ i, a !! i) idx) as [rs|] eqn:E; [by eexists|].
  apply mapM_None in E. apply Exists_exists in E as (i & Hi & Hnone).
  rewrite Forall_forall in Hidx. apply Hidx in Hi.
  apply lookup_ge_None in Hnone. lia.
Qed.

Lemma take_rows_length idx a rs : take_rows idx a = ok rs → length rs = length idx.
Proof. rewrite take_rows_ok. intros H. symmetry. by eapply Forall2_length. Qed.

Lemma take_rows_fmap (f : A → B) idx a rs :
  take_rows idx a = ok rs → take_rows idx (f <$> a) = ok (f <$> rs).
Proof.
  intros H%take_rows_ok. unfold take_rows.
  assert (mapM (λ i, (f <$> a) !! i) idx = Some (f <$> rs)) as ->; [|done].
  apply mapM_Some, Forall2_fmap_r.
  eapply Forall2_impl; [exact H|]. intros i r Hr. simpl.
  by rewrite list_lookup_fmap Hr.
Qed.

Lemma take_rows_fmap_result (f : A → B) idx a :
  take_rows idx (f <$> a) =
    match take_rows idx a with inl e => inl e | inr rs => inr (f <$> rs) end.
Proof.
  destruct (take_rows idx a) as [e|rs] eqn:E; [|by apply take_rows_fmap].
  revert E. unfold take_rows.
  destruct (mapM (λ i, a !! i) idx) as [rs|] eqn:E; [done|].
  apply mapM_None, Exists_exists in E as (i & Hi & Hnone).
  rewrite (proj2 (mapM_None (λ i, (f <$> a) !! i) idx)); [by unfold raise; intros; simplify_eq|].
  apply Exists_exists. exists i. by rewrite list_lookup_fmap Hnone.
Qed.

Lemma isin_arange_nil n : invert (isin (arange n) []) = replicate n true.
Proof.
  unfold invert, isin, arange. rewrite <- list_fmap_compose.
  generalize 0. induction n as [|n IH]; intros j; csimpl; [done|].
  by rewrite IH.
Qed.

Lemma isin_arange_cons n i idx :
  invert (isin (arange n) (i :: idx)) = <[i := false]> (invert (isin (arange n) idx)).
Proof.
  unfold invert, isin, arange. apply list_eq. intros j.
  destruct (decide (j < n)) as [Hj|Hj].
  - destruct (decide (i = j)) as [->|Hij].
    + rewrite list_lookup_insert_eq; [|by rewrite !length_fmap length_seq].
      rewrite !list_lookup_fmap lookup_seq_lt //=.
      rewrite bool_decide_eq_true_2; [done|apply list_elem_of_here].
    + rewrite list_lookup_insert_ne; [|done]. rewrite !list_lookup_fmap lookup_seq_lt //=.
      do 2 f_equal. apply bool_decide_ext. rewrite elem_of_cons. intuition congruence.
  - rewrite !lookup_ge_None_2 //; rewrite ?length_insert !length_fmap length_seq; lia.
Qed.

(** The rows [a[idx]] and the rows [a[~isin(arange, idx)]] split [a]. *)
Lemma take_rows_complement idx a rs :
  NoDup idx → take_rows idx a = ok rs →
  rs ++ compress (invert (isin (arange (length a)) idx)) a ≡ₚ a.
Proof.
  revert rs. induction idx as [|i idx IH]; intros rs Hnd Hrs.
  - apply take_rows_ok in Hrs. apply Forall2_nil_inv_l in Hrs as ->.
    by rewrite isin_arange_nil compress_all_true.
  - apply take_rows_ok in Hrs.
    apply Forall2_cons_inv_l in Hrs as (r & rs' & Hr & Hrs' & ->).
    apply NoDup_cons in Hnd as [Hi Hnd].
    etrans; [|apply (IH rs' Hnd); by apply take_rows_ok].
    rewrite isin_arange_cons.
    rewrite (compress_clear_bit (invert (isin (arange (length a)) idx)) a i r) //.
    + simpl. apply Permutation_middle.
    + unfold invert, isin, arange. rewrite !list_lookup_fmap.
      rewrite lookup_seq_lt; [|by eapply lookup_lt_Some]. simpl.
      by rewrite bool_decide_eq_false_2.
Qed.

End NumpyFacts.

(** ** Running the monadic code *)

Lemma rbind_inv {A B} (m : result A) (k : A → result B) b :
  rbind m k = inr b → ∃ a, m = inr a ∧ k a = inr b.
Proof. destruct m as [e|a]; simpl; [done|]. by exists a. Qed.

Lemma mask_rows_inv {A} (m : list bool) (a rs : list A) :
  mask_rows m a = inr rs → length m = length a ∧ rs = compress m a.
Proof. unfold mask_rows, ok, raise. case_decide; intros; by simplify_eq. Qed.

Lemma mask_rows_eq {A} (m : list bool) (a : list A) :
  length m = length a → mask_rows m a = inr (compress m a).
Proof. intros. unfold mask_rows. by rewrite decide_True. Qed.

Lemma mask_rows2_eq m y :
  length m = length (rows y) →
  mask_rows2 m y = inr (Array2 (width y) (compress m (rows y))).
Proof. intros. unfold mask_rows2. by rewrite mask_rows_eq. Qed.

Lemma column_eq c y :
  c < width y → column c y = inr ((λ r, entry r c) <$> rows y).
Proof. intros. unfold column. by rewrite decide_True. Qed.

Lemma columns_eq cs y :
  Forall (λ c, c < width y) cs →
  columns cs y = inr ((λ r, entry r <$> cs) <$> rows y).
Proof. intros. unfold columns. by rewrite decide_True. Qed.

Lemma mask_rows2_inv m y y' :
  mask_rows2 m y = inr y' →
  length m = length (rows y) ∧ y' = Array2 (width y) (compress m (rows y)).
Proof.
  unfold mask_rows2, ok. intros (rs & [? ->]%mask_rows_inv & ?)%rbind_inv.
  by simplify_eq.
Qed.

Lemma column_inv c y col :
  column c y = inr col → c < width y ∧ col = (λ r, entry r c) <$> rows y.
Proof. unfold column, ok, raise. case_decide; intros; by simplify_eq. Qed.

Lemma columns_inv cs y sel :
  columns cs y = inr sel →
  Forall (λ c, c < width y) cs ∧ sel = (λ r, entry r <$> cs) <$> rows y.
Proof. unfold columns, ok, raise. case_decide; intros; by simplify_eq. Qed.

Lemma concatenate2_inv a b y :
  concatenate2 a b = inr y → width a = width b ∧ y = Array2 (width a) (rows a ++ rows b).
Proof. unfold concatenate2, ok, raise. case_decide; intros; by simplify_eq. Qed.

Lemma eq_scalar_1 {A} (f : A → Z) (l : list A) :
  eq_scalar 1 (f <$> l) = (λ a, bool_decide (f a = 1%Z)) <$> l.
Proof.
  unfold eq_scalar. rewrite <- list_fmap_compose. apply list_fmap_ext.
  intros _ a _. simpl. destruct (Z.eqb_spec (f a) 1).
  - by rewrite bool_decide_eq_true_2.
  - by rewrite bool_decide_eq_false_2.
Qed.

Lemma target_bools_spec cs (ys : list (list Z)) :
  eq_scalar 1 (sum_axis1 ((λ r, entry r <$> cs) <$> ys))
  = (λ r, bool_decide (is_target cs r)) <$> ys.
Proof. unfold sum_axis1. rewrite <- list_fmap_compose. apply eq_scalar_1. Qed.

(** A mask computed from the label rows selects the same positions of the
    images, of the labels and of the image-label pairs. *)
Section MaskPairs.
Context {X : Type} (P : list Z → Prop) `{∀ r, Decision (P r)}.
Implicit Types (x : list X) (ys : list (list Z)).

Let mask ys : list bool := (λ r, bool_decide (P r)) <$> ys.

Lemma compress_pairs x ys :
  length x = length ys →
  compress (mask ys) (zip x ys) = filter (λ p, P p.2) (zip x ys).
Proof.
  intros Hlen. rewrite <- (compress_filter (λ p, P p.2)).
  f_equal. unfold mask. rewrite -{1}(snd_zip x ys); [|lia].
  by rewrite -list_fmap_compose.
Qed.

Lemma compress_invert_pairs x ys :
  length x = length ys →
  compress (invert (mask ys)) (zip x ys) = filter (λ p, ¬ P p.2) (zip x ys).
Proof.
  intros Hlen. rewrite <- (compress_invert_filter (λ p, P p.2)).
  f_equal. unfold mask. rewrite -{1}(snd_zip x ys); [|lia].
  by rewrite -list_fmap_compose.
Qed.

Lemma compress_images x ys :
  length x = length ys →
  compress (mask ys) x = (filter (λ p, P p.2) (zip x ys)).*1.
Proof.
  intros Hlen. rewrite -compress_pairs //.
  rewrite -compress_fmap fst_zip //. lia.
Qed.

Lemma compress_labels x ys :
  length x = length ys →
  compress (mask ys) ys = (filter (λ p, P p.2) (zip x ys)).*2.
Proof.
  intros Hlen. rewrite -compress_pairs //.
  rewrite -compress_fmap snd_zip //. lia.
Qed.

Lemma compress_invert_images x ys :
  length x = length ys →
  compress (invert (mask ys)) x = (filter (λ p, ¬ P p.2) (zip x ys)).*1.
Proof.
  intros Hlen. rewrite -compress_invert_pairs //.
  rewrite -compress_fmap fst_zip //. lia.
Qed.

Lemma compress_invert_labels x ys :
  length x = length ys →
  compress (invert (mask ys)) ys = (filter (λ p, ¬ P p.2) (zip x ys)).*2.
Proof.
  intros Hlen. rewrite -compress_invert_pairs //.
  rewrite -compress_fmap snd_zip //. lia.
Qed.

End MaskPairs.

(** ** [get_random_labeled_examples] *)

Section SamplerFacts.
Context `{R : Random} (HR : sample_contract R).
Context {X : Type}.
Implicit Types (x xt xtest : list X) (y yt ytest : array2) (g : rng).

Lemma bind_inv {A B} (m : M A) (k : A → M B) g b g' :
  bind m k g = inr (b, g') → ∃ a g1, m g = inr (a, g1) ∧ k a g1 = inr (b, g').
Proof.
  unfold bind. destruct (m g) as [e|[a g1]]; [done|]. by exists a, g1.
Qed.

Lemma lift_inv {A} (m : result A) g a g' :
  lift m g = inr (a, g') → m = inr a ∧ g' = g.
Proof. unfold lift, ok. destruct m; intros; by simplify_eq. Qed.

Lemma bind_unfold {A B} (m : M A) (k : A → M B) g :
  bind m k g = match m g with inl e => inl e | inr (a, g') => k a g' end.
Proof. done. Qed.

Lemma bind_lift {A B} (a : A) (k : A → M B) g : bind (lift (inr a)) k g = k a g.
Proof. done. Qed.

Lemma sample_inv n k g idx g' :
  random_sample n k g = inr (idx, g') →
  (0 ≤ k ≤ Z.of_nat n)%Z ∧ length idx = Z.to_nat k ∧
  NoDup idx ∧ Forall (λ i, i < n) idx.
Proof. intros E. pose proof (HR n k g) as H. by rewrite E in H. Qed.

Lemma sample_in_range n k g :
  (0 ≤ k ≤ Z.of_nat n)%Z → ∃ idx g', random_sample n k g = inr (idx, g').
Proof.
  intros Hk. pose proof (HR n k g) as H.
  destruct (random_sample n k g) as [e|[idx g']]; [tauto|by eauto].
Qed.

Lemma sample_out_of_range n k g :
  ¬ (0 ≤ k ≤ Z.of_nat n)%Z → random_sample n k g = inl ValueError.
Proof.
  intros Hk. pose proof (HR n k g) as H.
  destruct (random_sample n k g) as [e|[idx g']]; [by destruct H as [-> _]|tauto].
Qed.

(** What a returning call did: it drew [k] distinct positions among the rows
    with a one at column [c]; [sel] are the pairs drawn, in the order drawn,
    and [rest] the other pairs of the class. *)
Lemma get_random_labeled_examples_inv x y c k g xl yl xu g' :
  length x = length (rows y) →
  get_random_labeled_examples x y c k g = inr ((xl, yl, xu), g') →
  ∃ sel rest,
    sel ++ rest ≡ₚ with_column_one c x (rows y) ∧
    xl = sel.*1 ∧ yl = Array2 (width y) (sel.*2) ∧ xu = rest.*1 ∧
    length sel = Z.to_nat k ∧ (0 ≤ k)%Z ∧ c < width y.
Proof.
  intros Hlen. unfold get_random_labeled_examples.
  intros (col & g1 & [[Hc ->]%column_inv ->]%lift_inv & H)%bind_inv.
  apply bind_inv in H as (x_c & g1 & [[_ ->]%mask_rows_inv ->]%lift_inv & H).
  apply bind_inv in H as (col' & g1 & [[_ ->]%column_inv ->]%lift_inv & H).
  apply bind_inv in H as (y_c & g1 & [[_ ->]%mask_rows2_inv ->]%lift_inv & H).
  apply bind_inv in H as (idx & g1 & Hidx & H).
  apply bind_inv in H as (xl' & g2 & [Hxl ->]%lift_inv & H).
  apply bind_inv in H as (xu' & g2 & [[_ ->]%mask_rows_inv ->]%lift_inv & H).
  apply bind_inv in H as (yl' & g2 & [Hyl ->]%lift_inv & H).
  unfold ret, ok in H. simplify_eq.
  apply sample_inv in Hidx as (Hk & Hlenidx & Hnd & Hrange).
  revert Hxl Hyl Hrange. unfold take_rows2. simpl.
  rewrite !eq_scalar_1.
  rewrite (compress_images (λ r, entry r c = 1%Z)) //.
  rewrite (compress_labels (λ r, entry r c = 1%Z) x) //.
  fold (with_column_one c x (rows y)). set (xyc := with_column_one c x (rows y)).
  rewrite length_fmap. intros Hxl Hyl Hrange.
  destruct (take_rows_in_range idx xyc Hrange) as [sel Hsel].
  exists sel, (compress (invert (isin (arange (length xyc)) idx)) xyc).
  rewrite (take_rows_fmap fst _ _ _ Hsel) in Hxl.
  rewrite (take_rows_fmap snd _ _ _ Hsel) in Hyl.
  unfold ok in *. simpl in Hyl. simplify_eq.
  split_and!; try done.
  - by apply take_rows_complement.
  - by rewrite compress_fmap.
  - apply take_rows_length in Hsel. lia.
  - lia.
Qed.

(** The call, run: one draw among the rows of the class. *)
Lemma get_random_labeled_examples_run x y c k g :
  length x = length (rows y) → c < width y →
  let xyc := with_column_one c x (rows y) in
  get_random_labeled_examples x y c k g =
    match random_sample (length xyc) k g with
    | inl e => inl e
    | inr (idx, g') =>
        match take_rows idx xyc with
        | inl e => inl e
        | inr sel =>
            inr ((sel.*1, Array2 (width y) (sel.*2),
                  (compress (invert (isin (arange (length xyc)) idx)) xyc).*1), g')
        end
    end.
Proof.
  intros Hlen Hc xyc. unfold get_random_labeled_examples.
  rewrite column_eq // bind_lift eq_scalar_1.
  rewrite mask_rows_eq ?length_fmap // bind_lift.
  rewrite bind_lift eq_scalar_1 mask_rows2_eq ?length_fmap // bind_lift.
  rewrite (compress_images (λ r, entry r c = 1%Z)) //.
  rewrite (compress_labels (λ r, entry r c = 1%Z) x) //.
  fold (with_column_one c x (rows y)). fold xyc.
  rewrite bind_unfold length_fmap.
  destruct (random_sample (length xyc) k g) as [e|[idx g']]; [done|].
  rewrite take_rows_fmap_result. unfold take_rows2. simpl.
  rewrite take_rows_fmap_result.
  destruct (take_rows idx xyc) as [e|sel]; [done|].
  rewrite bind_lift mask_rows_eq; last first.
  { by rewrite /invert /isin /arange !length_fmap length_seq. }
  by rewrite bind_lift /= bind_lift compress_fmap.
Qed.

Lemma get_random_labeled_examples_returns x y c k g :
  length x = length (rows y) → c < width y →
  (0 ≤ k ≤ Z.of_nat (length (with_column_one c x (rows y))))%Z →
  ∃ out g', get_random_labeled_examples x y c k g = inr (out, g').
Proof.
  intros Hlen Hc Hk. rewrite get_random_labeled_examples_run //.
  destruct (sample_in_range _ k g Hk) as (idx & g' & E). rewrite E.
  apply sample_inv in E as (_ & _ & _ & Hrange).
  destruct (take_rows_in_range idx _ Hrange) as [sel ->]. by eauto.
Qed.

Lemma get_random_labeled_examples_raises x y c k g :
  length x = length (rows y) → c < width y →
  ¬ (0 ≤ k ≤ Z.of_nat (length (with_column_one c x (rows y))))%Z →
  get_random_labeled_examples x y c k g = inl ValueError.
Proof.
  intros Hlen Hc Hk. rewrite get_random_labeled_examples_run //.
  by rewrite sample_out_of_range.
Qed.

(** ** The loop over the classes *)

Lemma select_loop_inv xt yt cs k xl0 yl0 xu0 g xl yl xu g' :
  length xt = length (rows yt) →
  select_loop xt yt cs k (xl0, yl0, xu0) g = inr ((xl, yl, xu), g') →
  ∃ pieces,
    Forall2 (λ c p, piece_of c k xt yt p) cs pieces ∧
    xl = xl0 ++ (concat pieces.*1).*1 ∧
    yl = Array2 (width yl0) (rows yl0 ++ (concat pieces.*1).*2) ∧
    xu = xu0 ++ (concat pieces.*2).*1.
Proof.
  intros Hlen. revert xl0 yl0 xu0 g.
  induction cs as [|c cs IH]; intros xl0 yl0 xu0 g; simpl.
  - unfold ret, ok. intros ?; simplify_eq. exists [].
    rewrite /= !app_nil_r. split_and!; try done. by destruct yl.
  - intros ([[xt' yt'] xu'] & g1 & Hc & H)%bind_inv.
    apply bind_inv in H as (y' & g2 & [[Hw ->]%concatenate2_inv ->]%lift_inv & H).
    apply get_random_labeled_examples_inv in Hc
      as (sel & rest & Hperm & -> & -> & -> & Hsel & _); [|done].
    apply IH in H as (pieces & Hpieces & -> & -> & ->).
    exists ((sel, rest) :: pieces). simpl.
    rewrite !fmap_app -!app_assoc. split_and!; try done.
    constructor; [by split|done].
Qed.

Lemma select_loop_returns xt yt cs k xl0 yl0 xu0 g :
  length xt = length (rows yt) → width yl0 = width yt →
  Forall (λ c, c < width yt) cs →
  Forall (λ c, (0 ≤ k ≤ Z.of_nat (length (with_column_one c xt (rows yt))))%Z) cs →
  ∃ out g', select_loop xt yt cs k (xl0, yl0, xu0) g = inr (out, g').
Proof.
  intros Hlen. revert xl0 yl0 xu0 g.
  induction cs as [|c cs IH]; intros xl0 yl0 xu0 g Hw Hcs Hk; simpl.
  - by eexists _, _.
  - apply Forall_cons in Hcs as [Hc Hcs]. apply Forall_cons in Hk as [Hkc Hk].
    destruct (get_random_labeled_examples_returns xt yt c k g)
      as ([[xt' yt'] xu'] & g1 & E); [done..|].
    rewrite bind_unfold E.
    apply get_random_labeled_examples_inv in E
      as (sel & rest & _ & -> & -> & -> & _); [|done].
    unfold concatenate2. rewrite decide_True //= bind_lift. by apply IH.
Qed.

Lemma select_loop_raises xt yt cs k xl0 yl0 xu0 g :
  length xt = length (rows yt) → width yl0 = width yt →
  Forall (λ c, c < width yt) cs →
  Exists (λ c, ¬ (0 ≤ k ≤ Z.of_nat (length (with_column_one c xt (rows yt))))%Z) cs →
  select_loop xt yt cs k (xl0, yl0, xu0) g = inl ValueError.
Proof.
  intros Hlen. revert xl0 yl0 xu0 g.
  induction cs as [|c cs IH]; intros xl0 yl0 xu0 g Hw Hcs Hk; simpl.
  - by apply Exists_nil in Hk.
  - apply Forall_cons in Hcs as [Hc Hcs]. rewrite bind_unfold.
    destruct (decide (0 ≤ k ≤ Z.of_nat (length (with_column_one c xt (rows yt))))%Z)
      as [Hkc|Hkc]; [|by rewrite get_random_labeled_examples_raises].
    apply Exists_cons in Hk as [?|Hk]; [done|].
    destruct (get_random_labeled_examples_returns xt yt c k g)
      as ([[xt' yt'] xu'] & g1 & E); [done..|].
    rewrite E.
    apply get_random_labeled_examples_inv in E
      as (sel & rest & _ & -> & -> & -> & _); [|done].
    unfold concatenate2. rewrite decide_True //= bind_lift. by apply IH.
Qed.

(** ** [split_and_select_random_data] *)

Lemma class_rows_unzip c cs x y :
  with_column_one c (target_rows cs x y).*1 (target_rows cs x y).*2
  = class_rows c cs x y.
Proof. unfold with_column_one, class_rows. by rewrite zip_fst_snd. Qed.

Lemma split_and_select_random_data_run x y xtest ytest ntc k g cs g1 :
  length x = length (rows y) → length xtest = length (rows ytest) →
  Forall (λ c, c < width ytest) cs →
  random_sample (width y) ntc g = inr (cs, g1) →
  split_and_select_random_data x y xtest ytest ntc k g
  = after_draw cs x y xtest ytest k g1.
Proof.
  intros Hlen Hlent Hcst Hcs. unfold split_and_select_random_data.
  rewrite bind_unfold Hcs.
  apply sample_inv in Hcs as (_ & _ & _ & Hrange).
  rewrite columns_eq // bind_lift target_bools_spec.
  rewrite mask_rows2_eq ?length_fmap // bind_lift.
  rewrite mask_rows_eq ?length_fmap // bind_lift.
  rewrite mask_rows2_eq /invert ?length_fmap // bind_lift.
  rewrite mask_rows_eq ?length_fmap // bind_lift.
  rewrite columns_eq // bind_lift target_bools_spec.
  rewrite mask_rows_eq ?length_fmap // bind_lift.
  rewrite mask_rows2_eq ?length_fmap // bind_lift.
  fold (invert ((λ r, bool_decide (is_target cs r)) <$> rows y)).
  rewrite (compress_images (is_target cs) x) //.
  rewrite (compress_labels (is_target cs) x) //.
  rewrite (compress_invert_images (is_target cs) x) //.
  rewrite (compress_invert_labels (is_target cs) x) //.
  rewrite (compress_images (is_target cs) xtest) //.
  rewrite (compress_labels (is_target cs) xtest) //.
Qed.

Lemma after_draw_inv cs x y xtest ytest k g out g' :
  after_draw cs x y xtest ytest k g = inr (out, g') →
  ∃ pieces, split_of cs k pieces x y xtest ytest out.
Proof.
  unfold after_draw. destruct cs as [|c0 cs]; [done|].
  set (tr := target_rows (c0 :: cs) x y).
  assert (length tr.*1 = length tr.*2) as Hlen by by rewrite !length_fmap.
  intros ([[xl0 yl0] xu0] & g1 & Hc & H)%bind_inv.
  apply bind_inv in H as ([[xl yl] xu] & g2 & H & Hret).
  unfold ret, ok in Hret. simplify_eq.
  apply get_random_labeled_examples_inv in Hc
    as (sel & rest & Hperm & -> & -> & -> & Hsel & _); [|done].
  apply select_loop_inv in H as (pieces & Hpieces & -> & -> & ->); [|done].
  exists ((sel, rest) :: pieces). unfold split_of. simpl.
  rewrite !fmap_app. split_and!; try done.
  constructor.
  - simpl in *. by rewrite class_rows_unzip in Hperm.
  - eapply Forall2_impl; [exact Hpieces|]. intros c p [Hp ?]. simpl in *.
    by rewrite class_rows_unzip in Hp.
Qed.

Lemma split_and_select_random_data_inv x y xtest ytest ntc k g out g' :
  split_and_select_random_data x y xtest ytest ntc k g = inr (out, g') →
  ∃ cs g1 pieces,
    random_sample (width y) ntc g = inr (cs, g1) ∧
    length x = length (rows y) ∧ length xtest = length (rows ytest) ∧
    Forall (λ c, c < width ytest) cs ∧
    split_of cs k pieces x y xtest ytest out.
Proof.
  intros Hcall. pose proof Hcall as H. revert H.
  unfold split_and_select_random_data.
  intros (cs & g1 & Hcs & H)%bind_inv.
  apply bind_inv in H as (sel & g2 & [[_ ->]%columns_inv ->]%lift_inv & H).
  apply bind_inv in H as (yt & g2 & [[Hly ->]%mask_rows2_inv ->]%lift_inv & H).
  apply bind_inv in H as (xt & g2 & [[Hlx ->]%mask_rows_inv ->]%lift_inv & H).
  apply bind_inv in H as (ya & g2 & [_ ->]%lift_inv & H).
  apply bind_inv in H as (xa & g2 & [_ ->]%lift_inv & H).
  apply bind_inv in H as (selt & g2 & [[Hcst ->]%columns_inv ->]%lift_inv & H).
  apply bind_inv in H as (xte & g2 & [[Hlxt ->]%mask_rows_inv ->]%lift_inv & H).
  apply bind_inv in H as (yte & g2 & [[Hlyt ->]%mask_rows2_inv ->]%lift_inv & _).
  assert (length x = length (rows y)) as Hlen by congruence.
  assert (length xtest = length (rows ytest)) as Hlent by congruence.
  rewrite (split_and_select_random_data_run _ _ _ _ _ _ _ cs g1) // in Hcall.
  apply after_draw_inv in Hcall as [pieces Hout]. by exists cs, g1, pieces.
Qed.

Lemma after_draw_returns cs x y xtest ytest k g :
  cs ≠ [] → Forall (λ c, c < width y) cs →
  Forall (λ c, (0 ≤ k ≤ Z.of_nat (length (class_rows c cs x y)))%Z) cs →
  ∃ out g', after_draw cs x y xtest ytest k g = inr (out, g').
Proof.
  intros Hne Hcs Hk. unfold after_draw. destruct cs as [|c0 cs']; [done|].
  set (cs := c0 :: cs') in *. set (tr := target_rows cs x y).
  assert (length tr.*1 = length tr.*2) as Hlen by by rewrite !length_fmap.
  assert (Forall (λ c, (0 ≤ k ≤ Z.of_nat (length
    (with_column_one c tr.*1 (rows (Array2 (width y) tr.*2)))))%Z) cs) as Hk'.
  { eapply Forall_impl; [exact Hk|]. intros c ?. simpl.
    by rewrite class_rows_unzip. }
  apply Forall_cons in Hcs as [Hc0 Hcs]. apply Forall_cons in Hk' as [Hk0 Hk'].
  destruct (get_random_labeled_examples_returns tr.*1 (Array2 (width y) tr.*2)
    c0 k g) as ([[xl0 yl0] xu0] & g1 & E); [done..|].
  rewrite bind_unfold E.
  apply get_random_labeled_examples_inv in E
    as (sel & rest & _ & -> & -> & -> & _); [|done].
  destruct (select_loop_returns tr.*1 (Array2 (width y) tr.*2) cs' k
    sel.*1 (Array2 (width y) sel.*2) rest.*1 g1)
    as ([[xl yl] xu] & g2 & E); [done..|].
  rewrite bind_unfold E. by eexists _, _.
Qed.

Lemma after_draw_raises cs x y xtest ytest k g :
  Forall (λ c, c < width y) cs →
  Exists (λ c, ¬ (0 ≤ k ≤ Z.of_nat (length (class_rows c cs x y)))%Z) cs →
  after_draw cs x y xtest ytest k g = inl ValueError.
Proof.
  intros Hcs Hk. unfold after_draw. destruct cs as [|c0 cs'].
  { by apply Exists_nil in Hk. }
  set (cs := c0 :: cs') in *. set (tr := target_rows cs x y).
  assert (length tr.*1 = length tr.*2) as Hlen by by rewrite !length_fmap.
  assert (Exists (λ c, ¬ (0 ≤ k ≤ Z.of_nat (length
    (with_column_one c tr.*1 (rows (Array2 (width y) tr.*2)))))%Z) cs) as Hk'.
  { eapply Exists_impl; [exact Hk|]. intros c ?. simpl.
    by rewrite class_rows_unzip. }
  apply Forall_cons in Hcs as [Hc0 Hcs]. rewrite bind_unfold.
  destruct (decide (0 ≤ k ≤ Z.of_nat (length
    (with_column_one c0 tr.*1 (rows (Array2 (width y) tr.*2)))))%Z)
    as [Hk0|Hk0]; [|by rewrite get_random_labeled_examples_raises].
  apply Exists_cons in Hk' as [?|Hk']; [done|].
  destruct (get_random_labeled_examples_returns tr.*1 (Array2 (width y) tr.*2)
    c0 k g) as ([[xl0 yl0] xu0] & g1 & E); [done..|].
  rewrite E.
  apply get_random_labeled_examples_inv in E
    as (sel & rest & _ & -> & -> & -> & _); [|done].
  by rewrite bind_unfold select_loop_raises.
Qed.

End SamplerFacts.

(** ** The pool sampler meets the contract of [random.sample] *)

Section PoolFacts.
Import PoolSampler.
Context {A : Type}.
Implicit Types (pool : list A) (g : list nat).

Lemma randbelow_lt n g : 0 < n → (randbelow n g).1 < n.
Proof.
  intros Hn. destruct g as [|r g]; simpl; [done|].
  apply Nat.mod_upper_bound. lia.
Qed.

Lemma insert_last_perm pool j x last :
  pool !! j = Some x → x :: <[j := last]> pool ≡ₚ pool ++ [last].
Proof.
  revert j. induction pool as [|a pool IH]; intros [|j] Hj; simplify_eq/=.
  - by rewrite -Permutation_cons_append.
  - rewrite Permutation_swap. constructor. by apply IH.
Qed.

(** Moving the last live item into the vacancy keeps the live items, but for
    the one taken. *)
Lemma take_swap_out pool m j x last :
  j < m → pool !! j = Some x → pool !! (m - 1) = Some last →
  x :: take (m - 1) (<[j := last]> pool) ≡ₚ take m pool.
Proof.
  intros Hj Hx Hlast.
  replace m with (S (m - 1)) at 2 by lia. rewrite (take_S_r _ _ last) //.
  destruct (decide (j = m - 1)) as [->|Hne].
  - rewrite take_insert_ge //. simplify_eq. apply Permutation_cons_append.
  - rewrite take_insert_lt; [|lia]. apply insert_last_perm.
    rewrite lookup_take_lt //. lia.
Qed.

Lemma pool_draw_spec pool m k g :
  k ≤ m → m ≤ length pool →
  ∃ res g' rest,
    pool_draw pool m k g = inr (res, g') ∧ length res = k ∧
    res ++ rest ≡ₚ take m pool.
Proof.
  revert pool m g. induction k as [|k IH]; intros pool m g Hk Hm; simpl.
  - by exists [], g, (take m pool).
  - pose proof (randbelow_lt m g ltac:(lia)) as Hj.
    destruct (randbelow m g) as [j g1]. simpl in Hj.
    destruct (lookup_lt_is_Some_2 pool j ltac:(lia)) as [x Hx].
    destruct (lookup_lt_is_Some_2 pool (m - 1) ltac:(lia)) as [last Hlast].
    rewrite Hx Hlast.
    destruct (IH (<[j := last]> pool) (m - 1) g1) as (res & g' & rest & -> & Hlen & Hperm);
      [lia|rewrite length_insert; lia|].
    exists (x :: res), g', rest. simpl. split_and!; [done|by rewrite Hlen|].
    rewrite Hperm. by apply take_swap_out.
Qed.

End PoolFacts.

Lemma pool_sample_contract : sample_contract PoolSampler.pool_random.
Proof.
  intros n k g. simpl. unfold PoolSampler.sample. rewrite length_seq.
  case_decide as Hk; [|done].
  destruct (pool_draw_spec (seq 0 n) n (Z.to_nat k) g)
    as (idx & g' & rest & -> & Hlen & Hperm); [lia|by rewrite length_seq|].
  rewrite take_ge in Hperm; [|by rewrite length_seq].
  split_and!; try done; try lia.
  - eapply (NoDup_app idx rest). rewrite Hperm. apply NoDup_seq.
  - apply Forall_forall. intros i Hi.
    assert (i ∈ seq 0 n) as Hin by (rewrite -Hperm; apply elem_of_app; by left).
    apply elem_of_seq in Hin. lia.
Qed.

(** ** One-hot rows *)

Lemma one_hot_row_iff w r :
  one_hot_row w r ↔ ∃ c, c < w ∧ r = to_categorical_row w c.
Proof.
  unfold one_hot_row. rewrite list_elem_of_fmap. split.
  - intros (c & -> & Hc%elem_of_seq). exists c. split; [lia|done].
  - intros (c & Hc & ->). exists c. split; [done|]. apply elem_of_seq. lia.
Qed.

Lemma to_categorical_row_length w c : length (to_categorical_row w c) = w.
Proof. unfold to_categorical_row. by rewrite length_fmap length_seq. Qed.

Lemma to_categorical_row_lookup w c j :
  j < w → to_categorical_row w c !! j = Some (if decide (j = c) then 1%Z else 0%Z).
Proof.
  intros Hj. unfold to_categorical_row.
  by rewrite list_lookup_fmap lookup_seq_lt.
Qed.

Lemma entry_to_categorical_row w c j :
  entry (to_categorical_row w c) j = if decide (j = c ∧ j < w) then 1%Z else 0%Z.
Proof.
  unfold entry. destruct (decide (j < w)) as [Hj|Hj].
  - rewrite (nth_lookup_Some _ _ _ _ (to_categorical_row_lookup w c j Hj)).
    destruct (decide (j = c)); [rewrite decide_True|rewrite decide_False]; tauto.
  - rewrite nth_overflow; [|rewrite to_categorical_row_length; lia].
    rewrite decide_False; tauto.
Qed.

Lemma to_categorical_row_inj w c c' :
  c < w → to_categorical_row w c = to_categorical_row w c' → c = c'.
Proof.
  intros Hc Heq. assert (entry (to_categorical_row w c') c = 1%Z) as H.
  { rewrite -Heq entry_to_categorical_row decide_True //. }
  rewrite entry_to_categorical_row in H. case_decide as Hd; [by destruct Hd|done].
Qed.

(** The entries of a one-hot row at distinct columns [cs] sum to one when
    its class is among them, and to zero otherwise. *)
Lemma sum_row_one_hot w c cs :
  c < w → NoDup cs →
  sum_row (entry (to_categorical_row w c) <$> cs) = if decide (c ∈ cs) then 1%Z else 0%Z.
Proof.
  intros Hc. induction 1 as [|a cs Ha Hnd IH]; csimpl; [done|].
  rewrite IH entry_to_categorical_row.
  destruct (decide (a = c ∧ a < w)) as [[-> _]|Hn],
    (decide (c ∈ cs)) as [Hin|Hin], (decide (c ∈ _ :: cs)) as [Hin'|Hin'];
    try done; exfalso;
    try (apply elem_of_cons in Hin'); try (rewrite not_elem_of_cons in Hin');
    intuition (subst; try done; try lia).
Qed.

Lemma is_target_one_hot w c cs :
  c < w → NoDup cs → is_target cs (to_categorical_row w c) ↔ c ∈ cs.
Proof.
  intros Hc Hnd. unfold is_target. rewrite sum_row_one_hot //.
  case_decide; split; done.
Qed.

Lemma sum_row_to_categorical_row w c :
  c < w → sum_row (to_categorical_row w c) = 1%Z.
Proof.
  intros Hc.
  assert (to_categorical_row w c = entry (to_categorical_row w c) <$> seq 0 w) as ->.
  { apply list_eq. intros j. rewrite list_lookup_fmap.
    destruct (decide (j < w)) as [Hj|Hj].
    - rewrite lookup_seq_lt // to_categorical_row_lookup //=.
      rewrite entry_to_categorical_row. f_equal.
      destruct (decide (j = c)); [rewrite decide_True|rewrite decide_False]; tauto.
    - rewrite !lookup_ge_None_2 //.
      + rewrite length_seq. lia.
      + rewrite to_categorical_row_length. lia. }
  rewrite sum_row_one_hot //; [|apply NoDup_seq].
  rewrite decide_True //. apply elem_of_seq. lia.
Qed.

(** ** Lists of pairs *)

Section ListFacts.
Context {A B : Type}.

Lemma filter_ext_in (P Q : A → Prop) `{∀ a, Decision (P a)} `{∀ a, Decision (Q a)}
    (l : list A) :
  (∀ a, a ∈ l → P a ↔ Q a) → filter P l = filter Q l.
Proof.
  induction l as [|a l IH]; intros HPQ; [done|].
  rewrite !filter_cons IH; [|by intros b Hb; apply HPQ; right].
  destruct (HPQ a ltac:(left)) as [H1 H2].
  destruct (decide (P a)), (decide (Q a)); tauto.
Qed.

Lemma filter_or_exclusive (P Q : A → Prop)
    `{∀ a, Decision (P a)} `{∀ a, Decision (Q a)} (l : list A) :
  (∀ a, a ∈ l → P a → Q a → False) →
  filter (λ a, P a ∨ Q a) l ≡ₚ filter P l ++ filter Q l.
Proof.
  induction l as [|a l IH]; intros Hex; [done|].
  specialize (IH (λ b Hb, Hex b (list_elem_of_further _ _ _ Hb))).
  pose proof (Hex a ltac:(left)) as Ha. rewrite !filter_cons.
  destruct (decide (P a)), (decide (Q a)), (decide (P a ∨ Q a));
    try tauto; rewrite IH //=.
  by rewrite -Permutation_middle.
Qed.

Lemma fmap_concat (f : A → B) (ls : list (list A)) :
  f <$> concat ls = concat ((λ l : list A, f <$> l) <$> ls).
Proof. induction ls as [|l ls IH]; csimpl; [done|]. by rewrite fmap_app IH. Qed.

Lemma zip_elem_lookup (x : list A) (ys : list B) a b :
  (a, b) ∈ zip x ys ↔ ∃ j, x !! j = Some a ∧ ys !! j = Some b.
Proof.
  rewrite list_elem_of_lookup. split.
  - intros [j Hj]. exists j. by apply lookup_zip_Some in Hj.
  - intros (j & ? & ?). exists j. by apply lookup_zip_Some.
Qed.

Lemma NoDup_fst_filter_zip (P : A * B → Prop) `{∀ p, Decision (P p)}
    (x : list A) (ys : list B) :
  NoDup x → NoDup (filter P (zip x ys)).*1.
Proof.
  intros Hnd. eapply sublist_NoDup; [exact Hnd|].
  trans (zip x ys).*1.
  - apply fmap_sublist, sublist_filter.
  - clear. revert ys. induction x as [|a x IH]; intros [|b ys]; csimpl.
    + done.
    + done.
    + apply sublist_nil_l.
    + by apply sublist_skip.
Qed.

End ListFacts.

(** ** Target rows of one-hot labels *)

Section OneHotFacts.
Context {X : Type}.
Implicit Types (x : list X) (y : array2) (cs : list nat).

Lemma zip_label_one_hot x y p :
  one_hot y → p ∈ zip x (rows y) → ∃ c, c < width y ∧ p.2 = to_categorical_row (width y) c.
Proof.
  intros Hy Hp. destruct p as [r lbl]. apply elem_of_zip_r in Hp.
  unfold one_hot in Hy. rewrite Forall_forall in Hy.
  by apply one_hot_row_iff, Hy.
Qed.

(** For one-hot labels the summation test selects the rows of the drawn
    classes. *)
Lemma target_rows_one_hot cs x y :
  one_hot y → NoDup cs → Forall (λ c, c < width y) cs →
  target_rows cs x y = rows_of_classes cs x y.
Proof.
  intros Hy Hnd Hcs. apply filter_ext_in. intros p Hp.
  destruct (zip_label_one_hot x y p Hy Hp) as (c & Hc & ->).
  rewrite is_target_one_hot // list_elem_of_fmap. split.
  - intros Hin. by exists c.
  - intros (c' & Heq & Hin). by rewrite (to_categorical_row_inj _ _ _ Hc Heq).
Qed.

Lemma class_rows_one_hot c cs x y :
  one_hot y → NoDup cs → c ∈ cs → c < width y →
  class_rows c cs x y = rows_of_class c x y.
Proof.
  intros Hy Hnd Hin Hc. unfold class_rows, target_rows, rows_of_class.
  rewrite list_filter_filter. apply filter_ext_in. intros p Hp.
  destruct (zip_label_one_hot x y p Hy Hp) as (c' & Hc' & ->).
  rewrite is_target_one_hot // entry_to_categorical_row. split.
  - intros [Hd _]. case_decide as Hd'; [|done]. by destruct Hd' as [-> _].
  - intros ->%to_categorical_row_inj; [|done].
    rewrite decide_True //.
Qed.

(** The rows of the drawn classes, class by class. *)
Lemma rows_of_classes_by_class cs x y :
  NoDup cs → Forall (λ c, c < width y) cs →
  rows_of_classes cs x y ≡ₚ concat ((λ c, rows_of_class c x y) <$> cs).
Proof.
  unfold rows_of_classes, rows_of_class.
  induction 1 as [|c cs Hc Hnd IH]; intros Hcs; csimpl.
  - induction (zip x (rows y)) as [|p l IHl]; [done|].
    rewrite filter_cons. case_decide as Hin; [by apply elem_of_nil in Hin|done].
  - apply Forall_cons in Hcs as [Hcw Hcs]. rewrite -IH //.
    rewrite -filter_or_exclusive.
    + erewrite filter_ext_in; [done|]. intros p _. by rewrite elem_of_cons.
    + intros p _ Hp (c' & Heq & Hin)%list_elem_of_fmap.
      rewrite Hp in Heq. apply to_categorical_row_inj in Heq; [|done]. by subst.
Qed.

End OneHotFacts.

(** ** The pieces of a split *)

Section PieceFacts.
Context {A C : Type}.
Implicit Types (cs : list C) (pieces : list (list A * list A)).

Lemma Forall2_impl_elem {B} (P Q : C → B → Prop) (l : list C) (k : list B) :
  Forall2 P l k → (∀ a b, a ∈ l → P a b → Q a b) → Forall2 Q l k.
Proof.
  induction 1 as [|a b l k Hab _ IH]; intros HPQ; constructor.
  - apply HPQ; [left|done].
  - apply IH. intros a' b' Ha'. apply HPQ. by right.
Qed.

Lemma pieces_concat (F : C → list A) cs pieces :
  Forall2 (λ c p, p.1 ++ p.2 ≡ₚ F c) cs pieces →
  concat pieces.*1 ++ concat pieces.*2 ≡ₚ concat (F <$> cs).
Proof.
  induction 1 as [|c p cs pieces Hp _ IH]; csimpl; [done|].
  rewrite -Hp -IH -!app_assoc. apply Permutation_app_head.
  rewrite !app_assoc. apply Permutation_app_tail, Permutation_app_comm.
Qed.

Lemma pieces_length (P : C → list A * list A → Prop) cs pieces n :
  Forall2 (λ c p, P c p ∧ length p.1 = n) cs pieces →
  length (concat pieces.*1) = length cs * n.
Proof.
  induction 1 as [|c p cs pieces [_ Hp] _ IH]; csimpl; [done|].
  by rewrite length_app Hp IH.
Qed.

Lemma pieces_elem (F : C → list A) cs pieces n q :
  Forall2 (λ c p, p.1 ++ p.2 ≡ₚ F c ∧ length p.1 = n) cs pieces →
  q ∈ concat pieces.*1 ∨ q ∈ concat pieces.*2 → ∃ c, c ∈ cs ∧ q ∈ F c.
Proof.
  induction 1 as [|c p cs pieces [Hp _] _ IH]; csimpl.
  - by intros [?%elem_of_nil|?%elem_of_nil].
  - rewrite !elem_of_app. intros [[Hq|Hq]|[Hq|Hq]].
    + exists c. split; [left|]. rewrite -Hp. apply elem_of_app. by left.
    + destruct IH as (c' & ? & ?); [by left|]. exists c'. split; [by right|done].
    + exists c. split; [left|]. rewrite -Hp. apply elem_of_app. by right.
    + destruct IH as (c' & ? & ?); [by right|]. exists c'. split; [by right|done].
Qed.

Lemma pieces_Forall3 {B} (f : A → B) (F : C → list A) (Q : C → Prop) cs pieces n :
  Forall Q cs →
  Forall2 (λ c p, p.1 ++ p.2 ≡ₚ F c ∧ length p.1 = n) cs pieces →
  Forall3 (λ c (l u : list B), l ++ u ≡ₚ f <$> F c ∧ length l = n ∧ Q c) cs
    ((λ p : list A * list A, f <$> p.1) <$> pieces)
    ((λ p : list A * list A, f <$> p.2) <$> pieces).
Proof.
  intros HQ H. revert HQ.
  induction H as [|c p cs pieces [Hp Hn] _ IH]; intros [HQ HQs]%Forall_cons_1 ||
    intros _; csimpl; constructor; [|by apply IH].
  split_and!; [by rewrite -fmap_app Hp|by rewrite length_fmap|done].
Qed.

End PieceFacts.

(** * The claims on [split_and_select_random_data] *)

Section SamplerClaims.
Context `{R : Random} (HR : sample_contract R).
Context {X : Type}.
Implicit Types (x xtest : list X) (y ytest : array2) (g : rng) (out : split X).

Lemma zip_target_auxiliary cs x y :
  target_rows cs x y ++ auxiliary_rows cs x y ≡ₚ zip x (rows y).
Proof. apply (filter_app_complement (λ p, is_target cs p.2)). Qed.

Lemma labeled_unlabeled_one_hot cs k pieces x y xtest ytest out :
  one_hot y → NoDup cs → Forall (λ c, c < width y) cs →
  split_of cs k pieces x y xtest ytest out →
  x_target_labeled out ++ x_target_unlabeled out ≡ₚ (target_rows cs x y).*1.
Proof.
  intros Hy Hnd Hcs (Hpieces & -> & _ & -> & _).
  rewrite -fmap_app. f_equiv.
  rewrite (pieces_concat (λ c, rows_of_class c x y) cs).
  - by rewrite target_rows_one_hot // rows_of_classes_by_class.
  - eapply Forall2_impl_elem; [exact Hpieces|].
    intros c p Hc [Hp _]. rewrite Hp class_rows_one_hot //.
    rewrite Forall_forall in Hcs. by apply Hcs.
Qed.

(** C3. The target rows and the auxiliary rows split the training set: the
    auxiliary output holds the rows that fail the summation test, its row
    count and the target row count add up to the training row count, and no
    row is on both sides.  For one-hot labels the target rows are the rows
    returned as labeled or unlabeled. *)
Theorem target_auxiliary_partition x y xtest ytest ntc k g out g' :
  split_and_select_random_data x y xtest ytest ntc k g = inr (out, g') →
  ∃ cs g1,
    random_sample (width y) ntc g = inr (cs, g1) ∧
    x_auxiliary out = (auxiliary_rows cs x y).*1 ∧
    rows (y_auxiliary out) = (auxiliary_rows cs x y).*2 ∧
    target_rows cs x y ++ auxiliary_rows cs x y ≡ₚ zip x (rows y) ∧
    (target_rows cs x y).*1 ++ x_auxiliary out ≡ₚ x ∧
    length (x_auxiliary out) + length (target_rows cs x y) = length x ∧
    (NoDup x → ∀ r, r ∈ (target_rows cs x y).*1 → r ∉ x_auxiliary out) ∧
    (one_hot y →
     x_target_labeled out ++ x_target_unlabeled out ≡ₚ (target_rows cs x y).*1).
Proof.
  intros Hcall. apply split_and_select_random_data_inv in Hcall
    as (cs & g1 & pieces & Hcs & Hlen & _ & _ & Hout); [|done].
  exists cs, g1. pose proof Hout as (_ & _ & _ & _ & Hxa & Hya & _).
  destruct (sample_inv HR _ _ _ _ _ Hcs) as (_ & _ & Hnd & Hrange).
  assert ((target_rows cs x y).*1 ++ x_auxiliary out ≡ₚ x) as Hperm.
  { rewrite Hxa -fmap_app zip_target_auxiliary fst_zip //. lia. }
  split_and!; try done.
  - by rewrite Hya.
  - apply zip_target_auxiliary.
  - apply Permutation_length in Hperm.
    rewrite length_app length_fmap in Hperm. lia.
  - intros Hx. rewrite -Hperm in Hx. by apply NoDup_app in Hx as (_ & Hx & _).
  - intros Hy. by eapply labeled_unlabeled_one_hot.
Qed.

(** C2. For every drawn class the rows returned as labeled and the rows
    returned as unlabeled make up the target rows of the class, each once: the
    two lists together are a permutation of the class rows, so for distinct
    rows they are disjoint.  The outputs are the per-class lists concatenated
    in the order the classes were drawn. *)
Theorem labeled_unlabeled_partition x y xtest ytest ntc k g out g' :
  split_and_select_random_data x y xtest ytest ntc k g = inr (out, g') →
  ∃ cs g1 labeled unlabeled,
    random_sample (width y) ntc g = inr (cs, g1) ∧
    x_target_labeled out = concat labeled ∧
    x_target_unlabeled out = concat unlabeled ∧
    Forall3 (λ c l u,
      l ++ u ≡ₚ (class_rows c cs x y).*1 ∧
      (NoDup x → ∀ r, r ∈ l → r ∉ u) ∧
      (one_hot y → class_rows c cs x y = rows_of_class c x y))
      cs labeled unlabeled.
Proof.
  intros Hcall. apply split_and_select_random_data_inv in Hcall
    as (cs & g1 & pieces & Hcs & Hlen & _ & _ & Hout); [|done].
  destruct (sample_inv HR _ _ _ _ _ Hcs) as (_ & _ & Hnd & Hrange).
  destruct Hout as (Hpieces & Hxl & _ & Hxu & _).
  exists cs, g1, ((λ p, p.1.*1) <$> pieces), ((λ p, p.2.*1) <$> pieces).
  split_and!; [done|..].
  - by rewrite Hxl fmap_concat -list_fmap_compose.
  - by rewrite Hxu fmap_concat -list_fmap_compose.
  - eapply Forall3_impl.
    { apply (pieces_Forall3 fst (λ c, class_rows c cs x y) (λ c, c ∈ cs));
        [|exact Hpieces].
      by apply Forall_forall. }
    intros c l u (Hp & _ & Hc). split_and!; [done|..].
    + intros Hx r. assert (NoDup (l ++ u)) as Hlu.
      { rewrite Hp /class_rows /target_rows list_filter_filter.
        by apply NoDup_fst_filter_zip. }
      apply NoDup_app in Hlu as (_ & Hlu & _). apply Hlu.
    + intros Hy. apply class_rows_one_hot; try done.
      rewrite Forall_forall in Hrange. by apply Hrange.
Qed.


(** C4. On one-hot test labels the test subset is made of the test rows
    whose label is the one-hot row of a drawn class, in their order in the
    test set, images and labels alike: no other row, and none missing. *)
Theorem test_subset_of_selected_classes x y xtest ytest ntc k g out g' :
  one_hot ytest →
  split_and_select_random_data x y xtest ytest ntc k g = inr (out, g') →
  ∃ cs g1,
    random_sample (width y) ntc g = inr (cs, g1) ∧
    x_test out = (rows_of_classes cs xtest ytest).*1 ∧
    y_test out = Array2 (width ytest) (rows_of_classes cs xtest ytest).*2 ∧
    length (x_test out) = length (rows_of_classes cs xtest ytest) ∧
    shape0 (y_test out) = length (rows_of_classes cs xtest ytest).
Proof.
  intros Hyt Hcall. apply split_and_select_random_data_inv in Hcall
    as (cs & g1 & pieces & Hcs & _ & _ & Hcst & Hout); [|done].
  destruct (sample_inv HR _ _ _ _ _ Hcs) as (_ & _ & Hnd & _).
  destruct Hout as (_ & _ & _ & _ & _ & _ & Hxt & Hyt').
  exists cs, g1. rewrite /shape0 Hxt Hyt' /= !length_fmap.
  by rewrite target_rows_one_hot.
Qed.

(** C5. The call raises [ValueError], the sampling error, when more classes
    are asked for than the labels have columns, and when more examples per
    class are asked for than some drawn class has target rows; for one-hot
    labels these are the rows labelled with the class. *)
Theorem sampling_errors x y xtest ytest ntc k g :
  ((Z.of_nat (width y) < ntc)%Z →
   ∃ e, split_and_select_random_data x y xtest ytest ntc k g = inl e ∧
        sampling_error e) ∧
  (∀ cs g1,
     length x = length (rows y) → length xtest = length (rows ytest) →
     random_sample (width y) ntc g = inr (cs, g1) →
     Forall (λ c, c < width ytest) cs →
     Exists (λ c, (Z.of_nat (length (class_rows c cs x y)) < k)%Z) cs →
     ∃ e, split_and_select_random_data x y xtest ytest ntc k g = inl e ∧
          sampling_error e) ∧
  (∀ cs g1,
     one_hot y →
     length x = length (rows y) → length xtest = length (rows ytest) →
     random_sample (width y) ntc g = inr (cs, g1) →
     Forall (λ c, c < width ytest) cs →
     Exists (λ c, (Z.of_nat (length (rows_of_class c x y)) < k)%Z) cs →
     ∃ e, split_and_select_random_data x y xtest ytest ntc k g = inl e ∧
          sampling_error e).
Proof.
  assert (∀ cs g1,
     length x = length (rows y) → length xtest = length (rows ytest) →
     random_sample (width y) ntc g = inr (cs, g1) →
     Forall (λ c, c < width ytest) cs →
     Exists (λ c, (Z.of_nat (length (class_rows c cs x y)) < k)%Z) cs →
     ∃ e, split_and_select_random_data x y xtest ytest ntc k g = inl e ∧
          sampling_error e) as Hshort.
  { intros cs g1 Hlen Hlent Hcs Hcst Hk. exists ValueError. split; [|done].
    rewrite (split_and_select_random_data_run HR _ _ _ _ _ _ _ cs g1) //.
    destruct (sample_inv HR _ _ _ _ _ Hcs) as (_ & _ & _ & Hrange).
    apply after_draw_raises; [done..|].
    eapply Exists_impl; [exact Hk|]. intros c ?. simpl in *. lia. }
  split_and!; [|exact Hshort|].
  - intros Hntc. exists ValueError. split; [|done].
    unfold split_and_select_random_data.
    rewrite bind_unfold sample_out_of_range //. lia.
  - intros cs g1 Hy Hlen Hlent Hcs Hcst Hk. apply (Hshort cs g1); try done.
    destruct (sample_inv HR _ _ _ _ _ Hcs) as (_ & _ & Hnd & Hrange).
    apply Exists_exists in Hk as (c & Hc & Hk). apply Exists_exists.
    exists c. split; [done|]. rewrite class_rows_one_hot //.
    rewrite Forall_forall in Hrange. by apply Hrange.
Qed.






(** C10. The labeled images and the labeled labels are aligned: they have
    the same number of rows, and the image and the label at one position are
    the image and the label of one training row.  For one-hot training labels
    every labeled label is the one-hot row of a drawn class. *)
Theorem labeled_rows_aligned x y xtest ytest ntc k g out g' :
  one_hot y →
  split_and_select_random_data x y xtest ytest ntc k g = inr (out, g') →
  ∃ cs g1,
    random_sample (width y) ntc g = inr (cs, g1) ∧
    length (x_target_labeled out) = shape0 (y_target out) ∧
    (∀ i r lbl,
       x_target_labeled out !! i = Some r →
       rows (y_target out) !! i = Some lbl →
       ∃ j, x !! j = Some r ∧ rows y !! j = Some lbl) ∧
    Forall (λ lbl, ∃ c, c ∈ cs ∧ lbl = to_categorical_row (width y) c)
      (rows (y_target out)).
Proof.
  intros Hy Hcall. apply split_and_select_random_data_inv in Hcall
    as (cs & g1 & pieces & Hcs & Hlen & _ & _ & Hout); [|done].
  destruct (sample_inv HR _ _ _ _ _ Hcs) as (_ & _ & Hnd & Hrange).
  destruct Hout as (Hpieces & Hxl & Hyl & _).
  exists cs, g1. rewrite /shape0 Hxl Hyl /=.
  assert (∀ q, q ∈ concat pieces.*1 → ∃ c, c ∈ cs ∧ q ∈ rows_of_class c x y) as Hq.
  { intros q Hq. eapply pieces_elem in Hpieces as (c & Hc & Hin); [|by left].
    exists c. split; [done|]. rewrite -(class_rows_one_hot c cs) //.
    rewrite Forall_forall in Hrange. by apply Hrange. }
  split_and!; [done|by rewrite !length_fmap|..].
  - intros i r lbl Hr Hlbl. apply zip_elem_lookup.
    assert ((r, lbl) ∈ concat pieces.*1) as Hin.
    { rewrite -(zip_fst_snd (concat pieces.*1)). apply zip_elem_lookup. eauto. }
    apply Hq in Hin as (c & _ & Hin). by apply list_elem_of_filter in Hin as [_ ?].
  - apply Forall_forall. intros lbl (q & -> & Hin)%list_elem_of_fmap.
    apply Hq in Hin as (c & Hc & Hin). exists c. split; [done|].
    by apply list_elem_of_filter in Hin as [? _].
Qed.

Lemma labels_of_class (l : list (X * list Z)) c y x :
  l ⊆ rows_of_class c x y → l.*2 = replicate (length l) (to_categorical_row (width y) c).
Proof.
  induction l as [|q l IH]; intros Hl; csimpl; [done|].
  rewrite IH; [|by intros q' ?; apply Hl; right].
  assert (q ∈ rows_of_class c x y) as Hq by (apply Hl; left).
  by apply list_elem_of_filter in Hq as [-> _].
Qed.

(** C1. On one-hot training labels a returning call returns
    [num_target_classes * num_examples_per_class] labeled rows, images and
    labels alike: one block of [num_examples_per_class] rows of the class for
    each drawn class, in the order the classes were drawn.  The call returns
    when at least one class and at most the number of columns are asked for,
    no drawn class has fewer rows than asked for, and the arrays have
    matching shapes. *)
Theorem labeled_set_size x y xtest ytest ntc k g :
  one_hot y →
  (∀ out g',
     split_and_select_random_data x y xtest ytest ntc k g = inr (out, g') →
     ∃ cs g1 blocks,
       random_sample (width y) ntc g = inr (cs, g1) ∧
       length (x_target_labeled out) = Z.to_nat (ntc * k) ∧
       shape0 (y_target out) = Z.to_nat (ntc * k) ∧
       x_target_labeled out = concat blocks ∧
       Forall2 (λ c b, length b = Z.to_nat k ∧ b ⊆ (rows_of_class c x y).*1)
         cs blocks ∧
       rows (y_target out) =
         cs ≫= (λ c, replicate (Z.to_nat k) (to_categorical_row (width y) c))) ∧
  (length x = length (rows y) → length xtest = length (rows ytest) →
   width y ≤ width ytest →
   (1 ≤ ntc ≤ Z.of_nat (width y))%Z → (0 ≤ k)%Z →
   (∀ cs g1, random_sample (width y) ntc g = inr (cs, g1) →
      Forall (λ c, (k ≤ Z.of_nat (length (rows_of_class c x y)))%Z) cs) →
   ∃ out g', split_and_select_random_data x y xtest ytest ntc k g = inr (out, g')).
Proof.
  intros Hy. split.
  - intros out g' Hcall. apply split_and_select_random_data_inv in Hcall
      as (cs & g1 & pieces & Hcs & Hlen & _ & _ & Hout); [|done].
    destruct (sample_inv HR _ _ _ _ _ Hcs) as (Hntc & Hlencs & Hnd & Hrange).
    destruct Hout as (Hpieces & Hxl & Hyl & _).
    assert (Forall2 (λ c p, p.1 ++ p.2 ≡ₚ rows_of_class c x y ∧
                            length p.1 = Z.to_nat k) cs pieces) as Hpieces'.
    { eapply Forall2_impl_elem; [exact Hpieces|]. intros c p Hc [Hp ?].
      split; [|done]. rewrite Hp class_rows_one_hot //.
      rewrite Forall_forall in Hrange. by apply Hrange. }
    assert (length (concat pieces.*1) = Z.to_nat (ntc * k)) as Hsize.
    { rewrite (pieces_length _ _ _ _ Hpieces') Hlencs.
      destruct (decide (0 ≤ k)%Z); [rewrite Z2Nat.inj_mul; lia|].
      rewrite (Z2Nat.nonpos k); [|lia]. rewrite (Z2Nat.nonpos (ntc * k)); [|nia]. lia. }
    exists cs, g1, ((λ p, p.1.*1) <$> pieces).
    rewrite /shape0 Hxl Hyl /= !length_fmap.
    split_and!; try done.
    + by rewrite fmap_concat -list_fmap_compose.
    + apply Forall2_fmap_r. eapply Forall2_impl; [exact Hpieces'|].
      intros c p [Hp Hk]. simpl. rewrite length_fmap. split; [done|].
      intros r (q & -> & Hq)%list_elem_of_fmap. apply list_elem_of_fmap_2.
      rewrite -Hp. apply elem_of_app. by left.
    + clear -Hpieces'. induction Hpieces' as [|c p cs pieces [Hp Hk] _ IH]; csimpl; [done|].
      rewrite fmap_app IH. f_equal. rewrite -Hk. apply (labels_of_class _ _ _ x).
      intros q Hq. rewrite -Hp. apply elem_of_app. by left.
  - intros Hlen Hlent Hw Hntc Hk Hcount.
    destruct (sample_in_range HR (width y) ntc g) as (cs & g1 & Hcs); [lia|].
    destruct (sample_inv HR _ _ _ _ _ Hcs) as (_ & Hlencs & Hnd & Hrange).
    rewrite (split_and_select_random_data_run HR _ _ _ _ _ _ _ cs g1) //;
      last first.
    { eapply Forall_impl; [exact Hrange|]. intros c ?. simpl in *. lia. }
    apply after_draw_returns; try done.
    + intros ->. simpl in Hlencs. lia.
    + specialize (Hcount cs g1 Hcs). rewrite Forall_forall in Hcount.
      rewrite Forall_forall in Hrange. apply Forall_forall. intros c Hc.
      rewrite class_rows_one_hot //; [|by apply Hrange].
      specialize (Hcount c Hc). simpl in *. lia.
Qed.

End SamplerClaims.

(** * The claims on [load_mnist] *)

Lemma uint8_range b : (0 ≤ uint8 b ≤ 255)%Z.
Proof. unfold uint8. pose proof (Byte.to_N_bounded b). lia. Qed.

Lemma reshape_inv {A} sh (a a' : ndarray A) :
  reshape sh a = inr a' →
  foldr Nat.mul 1 sh = length (data a) ∧ a' = NdArray sh (data a).
Proof. unfold reshape, ok, raise. case_decide; intros; by simplify_eq. Qed.

Lemma frombuffer_inv buf offset a :
  frombuffer buf offset = inr a →
  offset ≤ length buf ∧
  a = NdArray [length buf - offset] (uint8 <$> drop offset buf).
Proof. unfold frombuffer, ok, raise. case_decide; intros; by simplify_eq. Qed.

Lemma column_index_lt n l c : column_index n l = Some c → c < n.
Proof. unfold column_index. repeat case_decide; intros; simplify_eq; lia. Qed.

Lemma to_categorical_inv labels n y :
  to_categorical labels n = inr y →
  ∃ cs, Forall2 (λ l c, column_index n l = Some c) (data labels) cs ∧
        y = Array2 n (to_categorical_row n <$> cs).
Proof.
  unfold to_categorical, ok, raise.
  destruct (mapM _ _) as [cs|] eqn:E; intros; simplify_eq.
  exists cs. split; [by apply mapM_Some|done].
Qed.

Lemma to_categorical_one_hot labels n y :
  to_categorical labels n = inr y →
  width y = n ∧ shape0 y = length (data labels) ∧ one_hot y.
Proof.
  intros (cs & Hcs & ->)%to_categorical_inv. unfold shape0, one_hot. simpl.
  rewrite length_fmap. split_and!; [done|by erewrite <- Forall2_length|].
  apply Forall_fmap, Forall_forall. intros c Hc. apply one_hot_row_iff.
  exists c. split; [|done].
  apply list_elem_of_lookup in Hc as [i Hi].
  destruct (Forall2_lookup_r _ _ _ _ _ Hcs Hi) as (l & _ & Hl).
  by eapply column_index_lt.
Qed.

Section LoaderClaims.
Context (fs : gmap string (list byte)).
Context (gunzip : list byte → option (list byte)).

Lemma gzip_read_inv p buf :
  gzip_read fs gunzip p = inr buf →
  ∃ raw, fs !! p = Some raw ∧ gunzip raw = Some buf.
Proof.
  unfold gzip_read, ok, raise. destruct (fs !! p) as [raw|]; [|done].
  destruct (gunzip raw) eqn:E; intros; simplify_eq. by exists raw.
Qed.

(** What a returning call read and returned. *)
Lemma load_mnist_inv path kind normalize return_4d_tensor one_hot imgs lbls :
  load_mnist fs gunzip path kind normalize return_4d_tensor one_hot
    = inr (imgs, lbls) →
  ∃ lraw lbuf iraw ibuf,
    fs !! labels_path path kind = Some lraw ∧ gunzip lraw = Some lbuf ∧
    fs !! images_path path kind = Some iraw ∧ gunzip iraw = Some ibuf ∧
    8 ≤ length lbuf ∧ 16 ≤ length ibuf ∧
    length ibuf - 16 = (length lbuf - 8) * 784 ∧
    let n := length lbuf - 8 in
    let raw := uint8 <$> drop 16 ibuf in
    let sh := if return_4d_tensor then [n; 28; 28; 1] else [n; 784] in
    imgs = (if normalize
            then Float64 (true_divide (NdArray sh raw) 255)
            else UInt8 (NdArray sh raw)) ∧
    let labels := NdArray [n] (uint8 <$> drop 8 lbuf) in
    if one_hot
    then ∃ y, to_categorical labels 10 = inr y ∧ lbls = OneHot y
    else lbls = ClassIndices labels.
Proof.
  unfold load_mnist.
  intros (lbuf & (lraw & Hl & Hlz)%gzip_read_inv & H)%rbind_inv.
  apply rbind_inv in H as (labels & [Hl8 ->]%frombuffer_inv & H).
  apply rbind_inv in H as (ibuf & (iraw & Hi & Hiz)%gzip_read_inv & H).
  apply rbind_inv in H as (flat & [Hi16 ->]%frombuffer_inv & H).
  apply rbind_inv in H as (images & [Hsize ->]%reshape_inv & H).
  apply rbind_inv in H as (images' & Himages & H).
  apply rbind_inv in H as (labels' & Hlabels & H).
  unfold ok in H. simplify_eq.
  simpl in Hsize. rewrite length_fmap length_drop in Hsize.
  exists lraw, lbuf, iraw, ibuf. split_and!; try done; try lia.
  - unfold len in *. simpl in *.
    destruct normalize, return_4d_tensor; simpl in *; unfold ok in *;
      simplify_eq; try done;
      apply rbind_inv in Himages as (a & [_ ->]%reshape_inv & ?);
      unfold ok in *; by simplify_eq.
  - simpl. destruct one_hot; unfold ok in *; [|by simplify_eq].
    apply rbind_inv in Hlabels as (y & ? & ?). exists y. by simplify_eq.
Qed.

Lemma gzip_read_error p e :
  gzip_read fs gunzip p = inl e → e = FileNotFoundError ∨ e = BadGzipFile.
Proof.
  unfold gzip_read, ok, raise. destruct (fs !! p) as [raw|]; [|intros; simplify_eq; by left].
  destruct (gunzip raw); intros; simplify_eq. by right.
Qed.

Lemma frombuffer_error buf offset e : frombuffer buf offset = inl e → e = ValueError.
Proof. unfold frombuffer, ok, raise. case_decide; intros; by simplify_eq. Qed.

Lemma reshape_error {A} sh (a : ndarray A) e : reshape sh a = inl e → e = ValueError.
Proof. unfold reshape, ok, raise. case_decide; intros; by simplify_eq. Qed.


(** C6. The call fails, with [FileNotFoundError], [BadGzipFile] or
    [ValueError] and so with no images and no labels, when one of the two
    files is missing, when one of them is not valid gzip, and when the image
    bytes after the 16-byte header are not 784 for each label after the
    8-byte header. *)
Theorem load_failures path kind normalize return_4d_tensor one_hot :
  fs !! labels_path path kind = None ∨
  fs !! images_path path kind = None ∨
  (∃ raw, fs !! labels_path path kind = Some raw ∧ gunzip raw = None) ∨
  (∃ raw, fs !! images_path path kind = Some raw ∧ gunzip raw = None) ∨
  (∃ lraw lbuf iraw ibuf,
     fs !! labels_path path kind = Some lraw ∧ gunzip lraw = Some lbuf ∧
     fs !! images_path path kind = Some iraw ∧ gunzip iraw = Some ibuf ∧
     length ibuf - 16 ≠ (length lbuf - 8) * 784) →
  ∃ e, load_mnist fs gunzip path kind normalize return_4d_tensor one_hot = inl e ∧
       file_or_decode_error e.
Proof.
  intros Hfail. unfold load_mnist, file_or_decode_error.
  destruct (gzip_read fs gunzip (labels_path path kind)) as [e|lbuf] eqn:El.
  { exists e. split; [done|]. apply gzip_read_error in El. tauto. }
  simpl. destruct (frombuffer lbuf 8) as [e|labels] eqn:Efl.
  { exists e. split; [done|]. apply frombuffer_error in Efl. tauto. }
  simpl. destruct (gzip_read fs gunzip (images_path path kind)) as [e|ibuf] eqn:Ei.
  { exists e. split; [done|]. apply gzip_read_error in Ei. tauto. }
  simpl. destruct (frombuffer ibuf 16) as [e|flat] eqn:Efi.
  { exists e. split; [done|]. apply frombuffer_error in Efi. tauto. }
  simpl. destruct (reshape [len labels; 784] flat) as [e|images] eqn:Er.
  { exists e. split; [done|]. apply reshape_error in Er. tauto. }
  exfalso.
  apply gzip_read_inv in El as (lraw & Hl & Hlz).
  apply gzip_read_inv in Ei as (iraw & Hi & Hiz).
  apply frombuffer_inv in Efl as [Hl8 ->]. apply frombuffer_inv in Efi as [Hi16 ->].
  apply reshape_inv in Er as [Hsize _]. simpl in Hsize.
  rewrite length_fmap length_drop in Hsize. unfold len in Hsize. simpl in Hsize.
  destruct Hfail as [?|[?|[(raw & ? & ?)|[(raw & ? & ?)|
    (lraw' & lbuf' & iraw' & ibuf' & ? & ? & ? & ? & Hne)]]]]; simplify_eq.
Qed.

(** The call, run on two files that decode and agree in size. *)
Lemma load_mnist_run path kind (normalize return_4d_tensor one_hot : bool)
    lraw lbuf iraw ibuf :
  fs !! labels_path path kind = Some lraw → gunzip lraw = Some lbuf →
  fs !! images_path path kind = Some iraw → gunzip iraw = Some ibuf →
  8 ≤ length lbuf → 16 ≤ length ibuf →
  length ibuf - 16 = (length lbuf - 8) * 784 →
  let n := length lbuf - 8 in
  let raw := uint8 <$> drop 16 ibuf in
  let sh := if return_4d_tensor then [n; 28; 28; 1] else [n; 784] in
  let labels := NdArray [n] (uint8 <$> drop 8 lbuf) in
  load_mnist fs gunzip path kind normalize return_4d_tensor one_hot =
    let? lbls :=
      if one_hot
      then (let? y := to_categorical labels 10 in ok (OneHot y))
      else ok (ClassIndices labels) in
    ok (if normalize
        then Float64 (true_divide (NdArray sh raw) 255)
        else UInt8 (NdArray sh raw), lbls).
Proof.
  intros Hl Hlz Hi Hiz Hl8 Hi16 Hsize. unfold load_mnist, gzip_read.
  rewrite Hl Hlz Hi Hiz /= /frombuffer !decide_True //=.
  unfold reshape, len. simpl.
  rewrite decide_True; [|by rewrite length_fmap length_drop; lia]. simpl.
  assert (∀ A (d : list A), length d = (length lbuf - 8) * 784 →
    reshape [length lbuf - 8; 28; 28; 1] (NdArray [length lbuf - 8; 784] d)
    = inr (NdArray [length lbuf - 8; 28; 28; 1] d)) as Hreshape.
  { intros A d Hd. unfold reshape. simpl. rewrite decide_True //. }
  destruct normalize, return_4d_tensor; simpl; try done;
    rewrite Hreshape //; rewrite !length_fmap length_drop; lia.
Qed.




(** C9. With [one_hot] set a returning call returns the labels as an array of
    10 columns whose rows are one-hot: row [i] is the one-hot row of the
    [i]-th label byte of the file, and every row sums to one. *)
Theorem one_hot_labels_sum_to_one path kind normalize return_4d_tensor imgs lbls :
  load_mnist fs gunzip path kind normalize return_4d_tensor true
    = inr (imgs, lbls) →
  ∃ y lraw lbuf,
    lbls = OneHot y ∧ width y = 10 ∧ one_hot y ∧
    fs !! labels_path path kind = Some lraw ∧ gunzip lraw = Some lbuf ∧
    rows y = (λ b, to_categorical_row 10 (Z.to_nat (uint8 b))) <$> drop 8 lbuf ∧
    Forall (λ r, length r = 10 ∧ sum_row r = 1%Z) (rows y) ∧
    sum_axis1 (rows y) = replicate (shape0 y) 1%Z.
Proof.
  intros (lraw & lbuf & iraw & ibuf & Hl & Hlz & _ & _ & _ & _ & _ & _ & y & Hy & ->)
    %load_mnist_inv.
  exists y, lraw, lbuf.
  pose proof (to_categorical_one_hot _ _ _ Hy) as (Hw & Hn & Hoh).
  assert (Forall (λ r, length r = 10 ∧ sum_row r = 1%Z) (rows y)) as Hrows.
  { unfold one_hot in Hoh. rewrite Hw in Hoh. eapply Forall_impl; [exact Hoh|].
    intros r (c & Hc & ->)%one_hot_row_iff.
    by rewrite to_categorical_row_length sum_row_to_categorical_row. }
  split_and!; try done.
  - apply to_categorical_inv in Hy as (cs & Hcs & ->). simpl in *. f_equal.
    apply Forall2_fmap_l in Hcs. clear -Hcs.
    induction Hcs as [|b c bs cs Hb _ IH]; csimpl; [done|]. rewrite IH. f_equal.
    revert Hb. simpl. unfold column_index. pose proof (uint8_range b).
    repeat case_decide; intros; simplify_eq; try lia. done.
  - unfold sum_axis1, shape0. clear -Hrows.
    induction Hrows as [|r rs [_ Hr] _ IH]; csimpl; [done|]. by rewrite Hr IH.
Qed.

End LoaderClaims.

(** * The scenario, run *)

Section ScenarioRuns.
Import PoolSampler Scenario.

(** Three classes and two examples per class: six labeled rows. *)
Lemma labeled_set_size_witness :
  one_hot train_labels ∧
  ∃ out g',
    run_split train_images train_labels 3%Z 2%Z = inr (out, g') ∧
    length (x_target_labeled out) = 6 ∧ shape0 (y_target out) = 6.
Proof.
  assert (one_hot train_labels) as Hy by compute_done.
  split; [exact Hy|].
  destruct (labeled_set_size pool_sample_contract train_images train_labels
              test_images test_labels 3%Z 2%Z tape Hy) as [Hsize Hret].
  destruct Hret as (out & g' & Hcall);
    [reflexivity|reflexivity|compute_done|compute_done|compute_done|..].
  { intros cs g1 Hcs. vm_compute in Hcs. simplify_eq. compute_done. }
  exists out, g'. split; [exact Hcall|].
  destruct (Hsize out g' Hcall) as (cs & g1 & blocks & _ & Hx & Hyl & _).
  split; [exact Hx|exact Hyl].
Defined.

Lemma labeled_unlabeled_partition_witness :
  ∃ out g',
    run_split train_images train_labels 3%Z 2%Z = inr (out, g') ∧
    ∃ cs g1 labeled unlabeled,
      random_sample (width train_labels) 3%Z tape = inr (cs, g1) ∧
      x_target_labeled out = concat labeled ∧
      x_target_unlabeled out = concat unlabeled ∧
      Forall3 (λ c l u,
        l ++ u ≡ₚ (class_rows c cs train_images train_labels).*1 ∧
        (NoDup train_images → ∀ r, r ∈ l → r ∉ u) ∧
        (one_hot train_labels →
         class_rows c cs train_images train_labels
         = rows_of_class c train_images train_labels))
        cs labeled unlabeled.
Proof.
  eexists _, _. split; [vm_compute; reflexivity|].
  apply (labeled_unlabeled_partition pool_sample_contract _ _
           test_images test_labels 3%Z 2%Z tape _ []).
  vm_compute. reflexivity.
Defined.

Lemma target_auxiliary_partition_witness :
  ∃ out g',
    run_split train_images train_labels 3%Z 2%Z = inr (out, g') ∧
    length (x_auxiliary out) = 70.
Proof.
  eexists _, _. split; [vm_compute; reflexivity|].
  match goal with |- length (x_auxiliary ?o) = _ =>
    destruct (target_auxiliary_partition pool_sample_contract
                train_images train_labels test_images test_labels 3%Z 2%Z tape o [])
      as (cs & g1 & Hcs & _ & _ & _ & _ & Hlen & _)
  end; [vm_compute; reflexivity|].
  vm_compute in Hcs. simplify_eq. vm_compute in Hlen. vm_compute. reflexivity.
Defined.

Lemma test_subset_of_selected_classes_witness :
  one_hot test_labels ∧
  ∃ out g',
    run_split train_images train_labels 3%Z 2%Z = inr (out, g') ∧
    ∃ cs g1,
      random_sample (width train_labels) 3%Z tape = inr (cs, g1) ∧
      x_test out = (rows_of_classes cs test_images test_labels).*1 ∧
      y_test out =
        Array2 (width test_labels) (rows_of_classes cs test_images test_labels).*2 ∧
      length (x_test out) = length (rows_of_classes cs test_images test_labels) ∧
      shape0 (y_test out) = length (rows_of_classes cs test_images test_labels).
Proof.
  assert (one_hot test_labels) as Hy by compute_done.
  split; [exact Hy|].
  eexists _, _. split; [vm_compute; reflexivity|].
  apply (test_subset_of_selected_classes pool_sample_contract train_images
           train_labels test_images test_labels 3%Z 2%Z tape _ [] Hy).
  vm_compute. reflexivity.
Defined.

(** Eleven classes of ten, and eleven examples of a class of ten rows. *)
Lemma sampling_errors_witness :
  (∃ e, run_split train_images train_labels 11%Z 2%Z = inl e ∧ sampling_error e) ∧
  (∃ e, run_split train_images train_labels 3%Z 11%Z = inl e ∧ sampling_error e).
Proof.
  split.
  - apply (sampling_errors pool_sample_contract train_images train_labels
             test_images test_labels 11%Z 2%Z tape). vm_compute. reflexivity.
  - eapply (proj1 (proj2 (sampling_errors pool_sample_contract train_images
              train_labels test_images test_labels 3%Z 11%Z tape))).
    + reflexivity.
    + reflexivity.
    + vm_compute. reflexivity.
    + compute_done.
    + apply Exists_cons_hd. vm_compute. reflexivity.
Defined.


Lemma labeled_rows_aligned_witness :
  one_hot train_labels ∧
  ∃ out g',
    run_split train_images train_labels 3%Z 2%Z = inr (out, g') ∧
    ∃ cs g1,
      random_sample (width train_labels) 3%Z tape = inr (cs, g1) ∧
      length (x_target_labeled out) = shape0 (y_target out) ∧
      (∀ i r lbl,
         x_target_labeled out !! i = Some r →
         rows (y_target out) !! i = Some lbl →
         ∃ j, train_images !! j = Some r ∧ rows train_labels !! j = Some lbl) ∧
      Forall (λ lbl, ∃ c, c ∈ cs ∧ lbl = to_categorical_row (width train_labels) c)
        (rows (y_target out)).
Proof.
  assert (one_hot train_labels) as Hy by compute_done.
  split; [exact Hy|].
  eexists _, _. split; [vm_compute; reflexivity|].
  apply (labeled_rows_aligned pool_sample_contract train_images train_labels
           test_images test_labels 3%Z 2%Z tape _ [] Hy).
  vm_compute. reflexivity.
Defined.

(** An image file that is one image short. *)
Lemma load_failures_witness :
  ∃ e, load_mnist short_files gunzip "data" "train" true true true = inl e ∧
       file_or_decode_error e.
Proof.
  apply load_failures. do 4 right.
  exists labels_file, (replicate 8 x00 ++ [x03; x09]), short_images_file,
    (replicate 16 x00 ++ replicate 784 xff).
  split_and!; [vm_compute; reflexivity..|].
  apply Nat.eqb_neq. vm_compute. reflexivity.
Defined.


Lemma one_hot_labels_sum_to_one_witness :
  ∃ imgs lbls,
    load_mnist files gunzip "data" "train" true true true = inr (imgs, lbls) ∧
    ∃ y lraw lbuf,
      lbls = OneHot y ∧ width y = 10 ∧ one_hot y ∧
      files !! labels_path "data" "train" = Some lraw ∧ gunzip lraw = Some lbuf ∧
      rows y = (λ b, to_categorical_row 10 (Z.to_nat (uint8 b))) <$> drop 8 lbuf ∧
      Forall (λ r, length r = 10 ∧ sum_row r = 1%Z) (rows y) ∧
      sum_axis1 (rows y) = replicate (shape0 y) 1%Z.
Proof.
  eexists _, _. split; [vm_compute; reflexivity|].
  eapply (one_hot_labels_sum_to_one files gunzip "data" "train" true true).
  vm_compute. reflexivity.
Defined.

End ScenarioRuns.

(** * More on [split_and_select_random_data] *)

Lemma compress_sublist {A} (m : list bool) (a : list A) :
  compress m a `sublist_of` a.
Proof.
  revert a. induction m as [|b m IH]; intros [|r a]; simpl;
    try apply sublist_nil_l.
  destruct b; [by apply sublist_skip|by apply sublist_cons].
Qed.

Lemma mask_rows_mismatch {A} (m : list bool) (a : list A) :
  length m ≠ length a → mask_rows m a = inl IndexError.
Proof. intros. unfold mask_rows. by rewrite decide_False. Qed.

Lemma drawn_at_piece {A} k (l : list A) idx p :
  drawn_at k l idx p → p.1 ++ p.2 ≡ₚ l ∧ length p.1 = Z.to_nat k.
Proof.
  intros (Hnd & Hlen & Hsel & ->). split.
  - by apply take_rows_complement.
  - apply take_rows_length in Hsel. lia.
Qed.

Lemma Forall3_Forall2_lr {A B C} (P : A → B → C → Prop) (Q : A → C → Prop)
    (l : list A) (k : list B) (k' : list C) :
  Forall3 P l k k' → (∀ a b c, P a b c → Q a c) → Forall2 Q l k'.
Proof. induction 1; intros HPQ; constructor; eauto. Qed.

Section SamplerDraws.
Context `{R : Random} (HR : sample_contract R).
Context {X : Type}.
Implicit Types (x xt xtest : list X) (y yt ytest : array2) (g : rng).
Implicit Types (out : split X).

(** A returning call of the helper, with the positions it drew. *)
Lemma get_random_labeled_examples_exact x y c k g xl yl xu g' :
  length x = length (rows y) →
  get_random_labeled_examples x y c k g = inr ((xl, yl, xu), g') →
  ∃ idx p,
    drawn_at k (with_column_one c x (rows y)) idx p ∧
    xl = p.1.*1 ∧ yl = Array2 (width y) p.1.*2 ∧ xu = p.2.*1.
Proof.
  intros Hlen Hcall.
  destruct (get_random_labeled_examples_inv HR _ _ _ _ _ _ _ _ _ Hlen Hcall)
    as (_ & _ & _ & _ & _ & _ & _ & _ & Hc).
  rewrite get_random_labeled_examples_run // in Hcall. simpl in Hcall.
  destruct (random_sample _ k g) as [e|[idx g1]] eqn:Hidx; [done|].
  destruct (take_rows idx _) as [e|sel] eqn:Hsel; [done|]. simplify_eq.
  destruct (sample_inv HR _ _ _ _ _ Hidx) as (_ & Hlenidx & Hnd & _).
  exists idx, (sel, not_drawn idx (with_column_one c x (rows y))).
  by split_and!.
Qed.

Lemma select_loop_exact xt yt cs k xl0 yl0 xu0 g xl yl xu g' :
  length xt = length (rows yt) →
  select_loop xt yt cs k (xl0, yl0, xu0) g = inr ((xl, yl, xu), g') →
  ∃ idxs pieces,
    Forall3 (λ c idx p, drawn_at k (with_column_one c xt (rows yt)) idx p)
      cs idxs pieces ∧
    xl = xl0 ++ (concat pieces.*1).*1 ∧
    yl = Array2 (width yl0) (rows yl0 ++ (concat pieces.*1).*2) ∧
    xu = xu0 ++ (concat pieces.*2).*1.
Proof.
  intros Hlen. revert xl0 yl0 xu0 g.
  induction cs as [|c cs IH]; intros xl0 yl0 xu0 g; simpl.
  - unfold ret, ok. intros ?; simplify_eq. exists [], [].
    rewrite /= !app_nil_r. split_and!; try done; [constructor|by destruct yl].
  - intros ([[xt' yt'] xu'] & g1 & Hc & H)%bind_inv.
    apply bind_inv in H as (y' & g2 & [[Hw ->]%concatenate2_inv ->]%lift_inv & H).
    apply get_random_labeled_examples_exact in Hc
      as (idx & p & Hp & -> & -> & ->); [|done].
    apply IH in H as (idxs & pieces & Hpieces & -> & -> & ->).
    exists (idx :: idxs), (p :: pieces). simpl.
    rewrite !fmap_app -!app_assoc. split_and!; try done. by constructor.
Qed.

Lemma after_draw_exact cs x y xtest ytest k g out g' :
  after_draw cs x y xtest ytest k g = inr (out, g') →
  ∃ idxs pieces,
    Forall3 (λ c idx p, drawn_at k (class_rows c cs x y) idx p) cs idxs pieces ∧
    split_of cs k pieces x y xtest ytest out.
Proof.
  unfold after_draw. destruct cs as [|c0 cs]; [done|].
  set (tr := target_rows (c0 :: cs) x y).
  assert (length tr.*1 = length tr.*2) as Hlen by by rewrite !length_fmap.
  intros ([[xl0 yl0] xu0] & g1 & Hc & H)%bind_inv.
  apply bind_inv in H as ([[xl yl] xu] & g2 & H & Hret).
  unfold ret, ok in Hret. simplify_eq.
  apply get_random_labeled_examples_exact in Hc
    as (idx & p & Hp & -> & -> & ->); [|done].
  apply select_loop_exact in H as (idxs & pieces & Hpieces & -> & -> & ->); [|done].
  simpl in Hp. rewrite class_rows_unzip in Hp.
  assert (Forall3 (λ c idx p, drawn_at k (class_rows c (c0 :: cs) x y) idx p)
            (c0 :: cs) (idx :: idxs) (p :: pieces)) as Hall.
  { constructor; [done|]. eapply Forall3_impl; [exact Hpieces|].
    intros c idx' p' Hp'. simpl in Hp'. by rewrite class_rows_unzip in Hp'. }
  exists (idx :: idxs), (p :: pieces). split; [done|].
  unfold split_of. simpl. rewrite !fmap_app. split_and!; try done.
  eapply Forall3_Forall2_lr; [exact Hall|].
  intros c idx' p' Hp'. by apply drawn_at_piece in Hp'.
Qed.

(** A returning call, with the classes and, for each class, the positions it
    drew. *)
Lemma split_and_select_random_data_exact x y xtest ytest ntc k g out g' :
  split_and_select_random_data x y xtest ytest ntc k g = inr (out, g') →
  ∃ cs g1 idxs pieces,
    random_sample (width y) ntc g = inr (cs, g1) ∧
    length x = length (rows y) ∧ length xtest = length (rows ytest) ∧
    Forall (λ c, c < width ytest) cs ∧
    Forall3 (λ c idx p, drawn_at k (class_rows c cs x y) idx p) cs idxs pieces ∧
    split_of cs k pieces x y xtest ytest out.
Proof.
  intros Hcall. pose proof Hcall as H.
  apply split_and_select_random_data_inv in H
    as (cs & g1 & _ & Hcs & Hlen & Hlent & Hcst & _); [|done].
  rewrite (split_and_select_random_data_run HR _ _ _ _ _ _ _ cs g1) // in Hcall.
  apply after_draw_exact in Hcall as (idxs & pieces & Hdraws & Hout).
  by exists cs, g1, idxs, pieces.
Qed.

End SamplerDraws.

Section DrawFacts.
Context {A B C : Type}.

Lemma not_drawn_nil (l : list A) : not_drawn [] l = l.
Proof. unfold not_drawn. by rewrite isin_arange_nil compress_all_true. Qed.

Lemma not_drawn_sublist idx (l : list A) : not_drawn idx l `sublist_of` l.
Proof. apply compress_sublist. Qed.

(** With no position drawn nothing is labeled and all is left. *)
Lemma drawn_zero (F : C → list A) cs idxs pieces :
  Forall3 (λ c idx p, drawn_at 0 (F c) idx p) cs idxs pieces →
  concat pieces.*1 = [] ∧ concat pieces.*2 = concat (F <$> cs).
Proof.
  induction 1 as [|c idx p cs idxs pieces (_ & Hlen & Hsel & Hp) _ [IH1 IH2]];
    csimpl; [done|].
  destruct idx; [|done]. rewrite not_drawn_nil in Hp.
  unfold take_rows, ok in Hsel. simpl in Hsel. simplify_eq.
  by rewrite IH1 IH2 Hp -Hsel.
Qed.

(** The rows left of a class are its rows, in order, but for as many rows as
    were drawn. *)
Lemma drawn_rest k (l : list A) idx p :
  drawn_at k l idx p →
  p.2 `sublist_of` l ∧ length p.2 + Z.to_nat k = length l.
Proof.
  intros Hp. pose proof (drawn_at_piece _ _ _ _ Hp) as [Hperm Hlen].
  destruct Hp as (_ & _ & _ & Hp2). split.
  - rewrite Hp2. apply not_drawn_sublist.
  - apply Permutation_length in Hperm. rewrite length_app in Hperm. lia.
Qed.

End DrawFacts.

Section SamplerExtras.
Context `{R : Random} (HR : sample_contract R).
Context {X : Type}.
Implicit Types (x xt xtest : list X) (y yt ytest : array2) (g : rng).
Implicit Types (out : split X).

(** X1. Asking for no class fails: the draw of the classes returns the empty
    list, the masks select no target row, and [target_classes[0]] raises
    [IndexError]. *)
Theorem no_class_requested x y xtest ytest k g :
  length x = length (rows y) → length xtest = length (rows ytest) →
  split_and_select_random_data x y xtest ytest 0 k g = inl IndexError.
Proof.
  intros Hlen Hlent.
  destruct (sample_in_range HR (width y) 0 g) as (cs & g1 & Hcs); [lia|].
  destruct (sample_inv HR _ _ _ _ _ Hcs) as (_ & Hlencs & _).
  destruct cs; [|done].
  by rewrite (split_and_select_random_data_run HR _ _ _ _ _ _ _ [] g1).
Qed.

(** X2. A negative count is refused by [random.sample]: a negative number of
    classes at the first draw, and a negative number of examples at the draw
    for the first class. *)
Theorem negative_counts x y xtest ytest ntc k g :
  ((ntc < 0)%Z →
   split_and_select_random_data x y xtest ytest ntc k g = inl ValueError) ∧
  (length x = length (rows y) → length xtest = length (rows ytest) →
   width y ≤ width ytest → (1 ≤ ntc ≤ Z.of_nat (width y))%Z → (k < 0)%Z →
   split_and_select_random_data x y xtest ytest ntc k g = inl ValueError).
Proof.
  split.
  - intros Hntc. unfold split_and_select_random_data.
    rewrite bind_unfold sample_out_of_range //. lia.
  - intros Hlen Hlent Hw Hntc Hk.
    destruct (sample_in_range HR (width y) ntc g) as (cs & g1 & Hcs); [lia|].
    destruct (sample_inv HR _ _ _ _ _ Hcs) as (_ & Hlencs & _ & Hrange).
    rewrite (split_and_select_random_data_run HR _ _ _ _ _ _ _ cs g1) //;
      last first.
    { eapply Forall_impl; [exact Hrange|]. intros c ?. simpl in *. lia. }
    apply after_draw_raises; [done..|].
    destruct cs as [|c0 cs]; [simpl in Hlencs; lia|].
    apply Exists_cons_hd. lia.
Qed.

(** X3. Arrays whose shapes do not match make the call fail with
    [IndexError], at the first mask that does not fit: images and labels of
    the training set with different row counts, test labels with fewer
    columns than a drawn class, images and labels of the test set with
    different row counts. *)
Theorem shape_mismatch x y xtest ytest ntc k g cs g1 :
  random_sample (width y) ntc g = inr (cs, g1) →
  (length x ≠ length (rows y) →
   split_and_select_random_data x y xtest ytest ntc k g = inl IndexError) ∧
  (length x = length (rows y) → ¬ Forall (λ c, c < width ytest) cs →
   split_and_select_random_data x y xtest ytest ntc k g = inl IndexError) ∧
  (length x = length (rows y) → Forall (λ c, c < width ytest) cs →
   length xtest ≠ length (rows ytest) →
   split_and_select_random_data x y xtest ytest ntc k g = inl IndexError).
Proof.
  intros Hcs. destruct (sample_inv HR _ _ _ _ _ Hcs) as (_ & _ & _ & Hrange).
  unfold split_and_select_random_data. rewrite bind_unfold Hcs.
  rewrite columns_eq // bind_lift target_bools_spec.
  rewrite mask_rows2_eq ?length_fmap // bind_lift.
  split_and!.
  - intros Hne. rewrite mask_rows_mismatch //. by rewrite length_fmap.
  - intros Hlen Hcst.
    rewrite mask_rows_eq ?length_fmap // bind_lift.
    rewrite mask_rows2_eq /invert ?length_fmap // bind_lift.
    rewrite mask_rows_eq ?length_fmap // bind_lift.
    unfold columns. by rewrite decide_False.
  - intros Hlen Hcst Hne.
    rewrite mask_rows_eq ?length_fmap // bind_lift.
    rewrite mask_rows2_eq /invert ?length_fmap // bind_lift.
    rewrite mask_rows_eq ?length_fmap // bind_lift.
    rewrite columns_eq // bind_lift target_bools_spec.
    rewrite mask_rows_mismatch //. by rewrite length_fmap.
Qed.

Lemma fst_filter_zip_sublist (P : X * list Z → Prop) `{∀ p, Decision (P p)}
    x (ys : list (list Z)) :
  (filter P (zip x ys)).*1 `sublist_of` x.
Proof.
  trans (zip x ys).*1; [apply fmap_sublist, sublist_filter|].
  revert ys. induction x as [|a x IH]; intros [|b ys]; csimpl;
    try apply sublist_nil_l. by apply sublist_skip.
Qed.

(** X4. The auxiliary output and the test output keep the order of the input
    and stay aligned: image and label at one position are image and label of
    one input row, rows are in input order, and each label array keeps the
    number of columns of the array it was cut from. *)
Theorem auxiliary_and_test_keep_order x y xtest ytest ntc k g out g' :
  split_and_select_random_data x y xtest ytest ntc k g = inr (out, g') →
  width (y_target out) = width y ∧
  width (y_auxiliary out) = width y ∧
  width (y_test out) = width ytest ∧
  length (x_auxiliary out) = shape0 (y_auxiliary out) ∧
  length (x_test out) = shape0 (y_test out) ∧
  zip (x_auxiliary out) (rows (y_auxiliary out)) `sublist_of` zip x (rows y) ∧
  zip (x_test out) (rows (y_test out)) `sublist_of` zip xtest (rows ytest).
Proof.
  intros Hcall. apply split_and_select_random_data_inv in Hcall
    as (cs & g1 & pieces & _ & _ & _ & _ & Hout); [|done].
  destruct Hout as (_ & _ & -> & _ & -> & -> & -> & ->).
  rewrite /shape0 /= !length_fmap !zip_fst_snd.
  split_and!; try done; apply sublist_filter.
Qed.

(** X5. The unlabeled output keeps the training order within each class: it
    is one block per drawn class, in the order the classes were drawn; a
    block holds the target rows of its class in training order, but for the
    [num_examples_per_class] rows that were drawn. *)
Theorem unlabeled_keeps_order x y xtest ytest ntc k g out g' :
  split_and_select_random_data x y xtest ytest ntc k g = inr (out, g') →
  ∃ cs g1 blocks,
    random_sample (width y) ntc g = inr (cs, g1) ∧
    x_target_unlabeled out = concat blocks ∧
    Forall2 (λ c b,
      b `sublist_of` (class_rows c cs x y).*1 ∧
      (class_rows c cs x y).*1 `sublist_of` x ∧
      length b + Z.to_nat k = length (class_rows c cs x y)) cs blocks.
Proof.
  intros Hcall. apply split_and_select_random_data_exact in Hcall
    as (cs & g1 & idxs & pieces & Hcs & _ & _ & _ & Hdraws & Hout); [|done].
  destruct Hout as (_ & _ & _ & -> & _).
  exists cs, g1, ((λ p, p.2.*1) <$> pieces). split_and!; [done|..].
  - by rewrite fmap_concat -list_fmap_compose.
  - apply Forall2_fmap_r. eapply Forall3_Forall2_lr; [exact Hdraws|].
    intros c idx p [Hsub Hlen]%drawn_rest. simpl. split_and!.
    + by apply fmap_sublist.
    + unfold class_rows, target_rows. rewrite list_filter_filter.
      apply fst_filter_zip_sublist.
    + by rewrite length_fmap.
Qed.

(** X6. With zero examples per class nothing is labeled and every target row
    of a drawn class is returned as unlabeled, class by class in training
    order; the call then returns whatever the sizes of the classes. *)
Theorem zero_examples_per_class x y xtest ytest ntc g :
  (∀ out g',
     split_and_select_random_data x y xtest ytest ntc 0 g = inr (out, g') →
     ∃ cs g1,
       random_sample (width y) ntc g = inr (cs, g1) ∧
       x_target_labeled out = [] ∧ rows (y_target out) = [] ∧
       x_target_unlabeled out = concat ((λ c, (class_rows c cs x y).*1) <$> cs)) ∧
  (length x = length (rows y) → length xtest = length (rows ytest) →
   width y ≤ width ytest → (1 ≤ ntc ≤ Z.of_nat (width y))%Z →
   ∃ out g', split_and_select_random_data x y xtest ytest ntc 0 g = inr (out, g')).
Proof.
  split.
  - intros out g' Hcall. apply split_and_select_random_data_exact in Hcall
      as (cs & g1 & idxs & pieces & Hcs & _ & _ & _ & Hdraws & Hout); [|done].
    destruct Hout as (_ & -> & -> & -> & _).
    apply (drawn_zero (λ c, class_rows c cs x y)) in Hdraws as [-> ->].
    exists cs, g1. split_and!; try done.
    by rewrite fmap_concat -list_fmap_compose.
  - intros Hlen Hlent Hw Hntc.
    destruct (sample_in_range HR (width y) ntc g) as (cs & g1 & Hcs); [lia|].
    destruct (sample_inv HR _ _ _ _ _ Hcs) as (_ & Hlencs & _ & Hrange).
    rewrite (split_and_select_random_data_run HR _ _ _ _ _ _ _ cs g1) //;
      last first.
    { eapply Forall_impl; [exact Hrange|]. intros c ?. simpl in *. lia. }
    apply after_draw_returns; try done.
    + intros ->. simpl in Hlencs. lia.
    + apply Forall_forall. intros c _. lia.
Qed.

Lemma all_drawn (cs : list nat) n c :
  NoDup cs → Forall (λ c, c < n) cs → length cs = n → c < n → c ∈ cs.
Proof.
  intros Hnd Hrange Hlen Hc.
  assert (cs ≡ₚ seq 0 n) as ->; [|apply elem_of_seq; lia].
  apply submseteq_length_Permutation; [|by rewrite length_seq Hlen].
  apply NoDup_submseteq; [done|]. intros c' Hc'.
  rewrite Forall_forall in Hrange. apply elem_of_seq. specialize (Hrange c' Hc'). lia.
Qed.

Lemma filter_nil_iff {A} (P : A → Prop) `{∀ a, Decision (P a)} (l : list A) :
  (∀ a, a ∈ l → ¬ P a) → filter P l = [].
Proof.
  induction l as [|a l IH]; intros HP; [done|].
  rewrite filter_cons decide_False; [|by apply HP; left].
  apply IH. intros b Hb. apply HP. by right.
Qed.

(** X7. When as many classes are asked for as the one-hot labels have
    columns, every class is drawn and every training row is a target row: the
    auxiliary output is empty. *)
Theorem all_classes_selected x y xtest ytest k g out g' :
  one_hot y →
  split_and_select_random_data x y xtest ytest (Z.of_nat (width y)) k g
    = inr (out, g') →
  x_auxiliary out = [] ∧ rows (y_auxiliary out) = [] ∧
  x_target_labeled out ++ x_target_unlabeled out ≡ₚ x.
Proof.
  intros Hy Hcall. apply split_and_select_random_data_inv in Hcall
    as (cs & g1 & pieces & Hcs & Hlen & _ & _ & Hout); [|done].
  destruct (sample_inv HR _ _ _ _ _ Hcs) as (_ & Hlencs & Hnd & Hrange).
  rewrite Nat2Z.id in Hlencs.
  assert (auxiliary_rows cs x y = []) as Haux.
  { apply filter_nil_iff. intros p Hp Hnt. apply Hnt.
    destruct (zip_label_one_hot x y p Hy Hp) as (c & Hc & ->).
    apply is_target_one_hot; [done..|]. by apply (all_drawn cs (width y)). }
  pose proof (labeled_unlabeled_one_hot _ _ _ _ _ _ _ _ Hy Hnd Hrange Hout) as Hperm.
  destruct Hout as (_ & _ & _ & _ & -> & -> & _). rewrite Haux. split_and!; try done.
  etrans; [exact Hperm|].
  pose proof (zip_target_auxiliary cs x y) as Hz. rewrite Haux app_nil_r in Hz.
  rewrite Hz fst_zip //. lia.
Qed.

Lemma zip_label_unique x (ys : list (list Z)) r lbl lbl' :
  NoDup x → (r, lbl) ∈ zip x ys → (r, lbl') ∈ zip x ys → lbl = lbl'.
Proof.
  intros Hnd (j & Hj & Hl)%zip_elem_lookup (j' & Hj' & Hl')%zip_elem_lookup.
  assert (j = j') as -> by by eapply NoDup_lookup. congruence.
Qed.

(** X8. Labels that are not one-hot can lose a row.  A training row whose
    entries at the drawn columns sum to one, with no one among them, passes
    the target test and belongs to no class: when the images are distinct it
    is in none of the labeled, unlabeled and auxiliary outputs. *)
Theorem row_of_no_class_is_dropped x y xtest ytest ntc k g out g' :
  NoDup x →
  split_and_select_random_data x y xtest ytest ntc k g = inr (out, g') →
  ∃ cs g1,
    random_sample (width y) ntc g = inr (cs, g1) ∧
    ∀ j r lbl,
      x !! j = Some r → rows y !! j = Some lbl →
      is_target cs lbl → Forall (λ c, entry lbl c ≠ 1%Z) cs →
      (r ∉ x_target_labeled out) ∧ (r ∉ x_target_unlabeled out) ∧
      (r ∉ x_auxiliary out).
Proof.
  intros Hx Hcall. apply split_and_select_random_data_inv in Hcall
    as (cs & g1 & pieces & Hcs & Hlen & _ & _ & Hout); [|done].
  exists cs, g1. split; [done|]. intros j r lbl Hr Hlbl Htarget Hnone.
  assert ((r, lbl) ∈ zip x (rows y)) as Hin by (apply zip_elem_lookup; eauto).
  destruct Hout as (Hpieces & -> & _ & -> & -> & _).
  assert (∀ q, q ∈ concat pieces.*1 ∨ q ∈ concat pieces.*2 → q.1 ≠ r) as Hclass.
  { intros [r' lbl'] Hq ?. simpl in *. subst r'.
    eapply pieces_elem in Hq as (c & Hc & Hq); [|exact Hpieces].
    apply list_elem_of_filter in Hq as [Hone Hq].
    apply list_elem_of_filter in Hq as [_ Hq].
    rewrite (zip_label_unique x (rows y) r lbl lbl') // in Hnone.
    rewrite Forall_forall in Hnone. by apply (Hnone c). }
  split_and!.
  - intros (q & -> & Hq)%list_elem_of_fmap. by apply (Hclass q); [left|].
  - intros (q & -> & Hq)%list_elem_of_fmap. by apply (Hclass q); [right|].
  - intros ([r' lbl'] & ? & Hq)%list_elem_of_fmap. simpl in *. subst r'.
    apply list_elem_of_filter in Hq as [Hnt Hq]. apply Hnt. simpl.
    by rewrite -(zip_label_unique x (rows y) r lbl lbl').
Qed.

Lemma after_draw_other_test cs x y xtest ytest xtest' ytest' k g out g' :
  after_draw cs x y xtest ytest k g = inr (out, g') →
  after_draw cs x y xtest' ytest' k g =
    inr (Split (x_target_labeled out) (y_target out)
           (target_rows cs xtest' ytest').*1
           (Array2 (width ytest') (target_rows cs xtest' ytest').*2)
           (x_target_unlabeled out) (x_auxiliary out) (y_auxiliary out), g').
Proof.
  unfold after_draw. destruct cs as [|c0 cs]; [done|].
  rewrite !bind_unfold. destruct (get_random_labeled_examples _ _ _ _ _)
    as [e|[first g1]]; [done|].
  rewrite !bind_unfold. destruct (select_loop _ _ _ _ _ _) as [e|[[[xl yl] xu] g2]];
    [done|].
  unfold ret, ok. intros ?. by simplify_eq.
Qed.

(** X9. The test set has no part in the training outputs.  When a call
    returns, the call on any other test set of matching shapes returns too,
    with the same labeled, unlabeled and auxiliary outputs and the generator
    in the same state. *)
Theorem test_set_is_independent x y xtest ytest xtest' ytest' ntc k g out g' :
  split_and_select_random_data x y xtest ytest ntc k g = inr (out, g') →
  length xtest' = length (rows ytest') → width y ≤ width ytest' →
  ∃ out',
    split_and_select_random_data x y xtest' ytest' ntc k g = inr (out', g') ∧
    x_target_labeled out' = x_target_labeled out ∧
    y_target out' = y_target out ∧
    x_target_unlabeled out' = x_target_unlabeled out ∧
    x_auxiliary out' = x_auxiliary out ∧
    y_auxiliary out' = y_auxiliary out.
Proof.
  intros Hcall Hlent' Hw. pose proof Hcall as H.
  apply split_and_select_random_data_inv in H
    as (cs & g1 & _ & Hcs & Hlen & Hlent & Hcst & _); [|done].
  destruct (sample_inv HR _ _ _ _ _ Hcs) as (_ & _ & _ & Hrange).
  rewrite (split_and_select_random_data_run HR _ _ _ _ _ _ _ cs g1) // in Hcall.
  rewrite (split_and_select_random_data_run HR _ _ _ _ _ _ _ cs g1) //; last first.
  { eapply Forall_impl; [exact Hrange|]. intros c ?. simpl in *. lia. }
  rewrite (after_draw_other_test _ _ _ _ _ _ _ _ _ _ _ Hcall). by eexists.
Qed.

(** X10. The errors of [get_random_labeled_examples], in the order the code
    meets them: a class that is no column of the labels and labels that do
    not fit the images raise [IndexError]; a count that is negative or
    exceeds the rows of the class raises [ValueError]; any other call
    returns. *)
Theorem get_random_labeled_examples_errors x y c k g :
  (width y ≤ c → get_random_labeled_examples x y c k g = inl IndexError) ∧
  (c < width y → length x ≠ length (rows y) →
   get_random_labeled_examples x y c k g = inl IndexError) ∧
  (c < width y → length x = length (rows y) →
   ¬ (0 ≤ k ≤ Z.of_nat (length (with_column_one c x (rows y))))%Z →
   get_random_labeled_examples x y c k g = inl ValueError) ∧
  (c < width y → length x = length (rows y) →
   (0 ≤ k ≤ Z.of_nat (length (with_column_one c x (rows y))))%Z →
   ∃ r g', get_random_labeled_examples x y c k g = inr (r, g')).
Proof.
  split_and!.
  - intros Hc. unfold get_random_labeled_examples, column.
    rewrite decide_False //. lia.
  - intros Hc Hne. unfold get_random_labeled_examples.
    rewrite column_eq // bind_lift eq_scalar_1 mask_rows_mismatch //.
    by rewrite length_fmap.
  - intros. by apply get_random_labeled_examples_raises.
  - intros. by apply get_random_labeled_examples_returns.
Qed.

Lemma get_random_labeled_examples_shapes x y c k g r g' :
  get_random_labeled_examples x y c k g = inr (r, g') →
  c < width y ∧ length x = length (rows y).
Proof.
  unfold get_random_labeled_examples.
  intros (col & g1 & [[Hc ->]%column_inv ->]%lift_inv & H)%bind_inv.
  apply bind_inv in H as (x_c & g1 & [[Hlen _]%mask_rows_inv _]%lift_inv & _).
  rewrite /eq_scalar !length_fmap in Hlen. done.
Qed.

(** X11. What [get_random_labeled_examples] returns for a class [c]:
    [num_labeled] images with their labels, each pair a row of the data with
    a one at column [c]; the other rows of the class as unlabeled, in the
    order of the data; no row of the class is lost or returned twice. *)
Theorem get_random_labeled_examples_result x y c k g xl yl xu g' :
  get_random_labeled_examples x y c k g = inr ((xl, yl, xu), g') →
  length xl = Z.to_nat k ∧ shape0 yl = Z.to_nat k ∧ width yl = width y ∧
  Forall (λ p, p ∈ zip x (rows y) ∧ entry p.2 c = 1%Z) (zip xl (rows yl)) ∧
  xu `sublist_of` x ∧
  xl ++ xu ≡ₚ (with_column_one c x (rows y)).*1 ∧
  length xl + length xu = length (with_column_one c x (rows y)).
Proof.
  intros Hcall.
  destruct (get_random_labeled_examples_shapes _ _ _ _ _ _ _ Hcall) as [Hc Hlen].
  apply get_random_labeled_examples_exact in Hcall
    as (idx & p & Hp & -> & -> & ->); [|done..].
  pose proof (drawn_at_piece _ _ _ _ Hp) as [Hperm Hk].
  pose proof (drawn_rest _ _ _ _ Hp) as [Hsub _].
  rewrite /shape0 /= !length_fmap zip_fst_snd. split_and!; try done.
  - apply Forall_forall. intros q Hq.
    assert (q ∈ with_column_one c x (rows y)) as Hin.
    { rewrite -Hperm. apply elem_of_app. by left. }
    by apply list_elem_of_filter in Hin as [? ?].
  - trans (with_column_one c x (rows y)).*1; [by apply fmap_sublist|].
    apply fst_filter_zip_sublist.
  - by rewrite -fmap_app Hperm.
  - apply Permutation_length in Hperm. by rewrite length_app in Hperm.
Qed.

End SamplerExtras.

(** * More on [load_mnist] *)

Section LoaderExtras.
Context (fs : gmap string (list byte)).
Context (gunzip : list byte → option (list byte)).

(** X12. A returning call returns as many images as labels: the first
    dimension of the images is the number of labels, each image has 784
    pixels, and the shape is [(n, 28, 28, 1)] or [(n, 784)] as asked. *)
Theorem load_mnist_shapes path kind normalize return_4d_tensor one_hot imgs lbls :
  load_mnist fs gunzip path kind normalize return_4d_tensor one_hot
    = inr (imgs, lbls) →
  let n := labels_len lbls in
  pixels_shape imgs = (if return_4d_tensor then [n; 28; 28; 1] else [n; 784]) ∧
  pixels_size imgs = n * 784 ∧
  match lbls with
  | ClassIndices a => one_hot = false ∧ shape a = [n] ∧ length (data a) = n
  | OneHot y => one_hot = true ∧ width y = 10
  end.
Proof.
  intros (lraw & lbuf & iraw & ibuf & _ & _ & _ & _ & Hl8 & Hi16 & Hsize & -> & Hlbls)
    %load_mnist_inv.
  assert (labels_len lbls = length lbuf - 8 ∧
          match lbls with
          | ClassIndices a =>
              one_hot = false ∧ shape a = [length lbuf - 8] ∧
              length (data a) = length lbuf - 8
          | OneHot y => one_hot = true ∧ width y = 10
          end) as [Hn Hshape].
  { simpl in Hlbls. destruct one_hot.
    - destruct Hlbls as (y & Hy & ->).
      apply to_categorical_one_hot in Hy as (Hw & Hn & _). simpl in *.
      by rewrite Hn length_fmap length_drop.
    - subst lbls. simpl. by rewrite length_fmap length_drop. }
  simpl. rewrite Hn. split_and!.
  - by destruct normalize, return_4d_tensor.
  - destruct normalize; simpl; rewrite !length_fmap length_drop; lia.
  - exact Hshape.
Qed.

Lemma to_categorical_returns labels n :
  Forall (λ l, (0 ≤ l < Z.of_nat n)%Z) (data labels) →
  ∃ y, to_categorical labels n = inr y.
Proof.
  intros Hl. unfold to_categorical.
  destruct (mapM (column_index n) (data labels)) as [cs|] eqn:E; [by eexists|].
  apply mapM_None, Exists_exists in E as (l & Hin & Hnone).
  rewrite Forall_forall in Hl. specialize (Hl l Hin).
  unfold column_index in Hnone. by rewrite decide_True in Hnone.
Qed.

Lemma to_categorical_raises labels n :
  Exists (λ l, (Z.of_nat n ≤ l)%Z) (data labels) →
  to_categorical labels n = inl IndexError.
Proof.
  intros (l & Hin & Hl)%Exists_exists. unfold to_categorical.
  rewrite (proj2 (mapM_None _ _)) //. apply Exists_exists. exists l.
  split; [done|]. unfold column_index. rewrite !decide_False //; lia.
Qed.

(** X13. The decoder skips the headers and never reads them: whatever the 8
    and the 16 header bytes are, a call without normalization and one-hot
    encoding returns the label bytes and the pixel bytes that follow them, in
    the order of the files, as unsigned integers. *)
Theorem load_mnist_decodes path kind (return_4d_tensor : bool)
    lraw iraw h8 h16 ls ps :
  fs !! labels_path path kind = Some lraw → gunzip lraw = Some (h8 ++ ls) →
  fs !! images_path path kind = Some iraw → gunzip iraw = Some (h16 ++ ps) →
  length h8 = 8 → length h16 = 16 → length ps = length ls * 784 →
  load_mnist fs gunzip path kind false return_4d_tensor false =
    inr (UInt8 (NdArray (if return_4d_tensor
                         then [length ls; 28; 28; 1] else [length ls; 784])
                  (uint8 <$> ps)),
         ClassIndices (NdArray [length ls] (uint8 <$> ls))).
Proof.
  intros Hl Hlz Hi Hiz H8 H16 Hps.
  rewrite (load_mnist_run fs gunzip _ _ _ _ _ _ _ _ _ Hl Hlz Hi Hiz);
    rewrite ?length_app; try lia.
  simpl.
  replace (drop 8 (h8 ++ ls)) with ls by by rewrite -H8 drop_app_length.
  replace (drop 16 (h16 ++ ps)) with ps by by rewrite -H16 drop_app_length.
  by replace (length h8 + length ls - 8) with (length ls) by lia.
Qed.

(** X14. When the call returns: both files are there and decode, the label
    file has its 8 header bytes and the image file its 16, there are 784
    pixel bytes for each label byte, and, with [one_hot] set, every label is
    below 10. *)
Theorem load_mnist_returns_iff path kind normalize return_4d_tensor (one_hot : bool) :
  (∃ r, load_mnist fs gunzip path kind normalize return_4d_tensor one_hot = inr r) ↔
  ∃ lraw lbuf iraw ibuf,
    fs !! labels_path path kind = Some lraw ∧ gunzip lraw = Some lbuf ∧
    fs !! images_path path kind = Some iraw ∧ gunzip iraw = Some ibuf ∧
    8 ≤ length lbuf ∧ 16 ≤ length ibuf ∧
    length ibuf - 16 = (length lbuf - 8) * 784 ∧
    (one_hot = true → Forall (λ b, (uint8 b < 10)%Z) (drop 8 lbuf)).
Proof.
  split.
  - intros [[imgs lbls]
      (lraw & lbuf & iraw & ibuf & Hl & Hlz & Hi & Hiz & Hl8 & Hi16 & Hsize & _ & Hlbls)
      %load_mnist_inv].
    exists lraw, lbuf, iraw, ibuf. split_and!; try done.
    intros ->. simpl in Hlbls. destruct Hlbls as (y & Hy & _).
    apply to_categorical_inv in Hy as (cs & Hcs & _). simpl in Hcs.
    apply Forall_forall. intros b Hb.
    apply list_elem_of_lookup in Hb as [i Hi'].
    destruct (Forall2_lookup_l _ _ _ i (uint8 b) Hcs) as (c & _ & Hc).
    { by rewrite list_lookup_fmap Hi'. }
    pose proof (uint8_range b). unfold column_index in Hc.
    repeat case_decide; simplify_eq; lia.
  - intros (lraw & lbuf & iraw & ibuf & Hl & Hlz & Hi & Hiz & Hl8 & Hi16 & Hsize & Hlbls).
    rewrite (load_mnist_run fs gunzip _ _ _ _ _ _ _ _ _ Hl Hlz Hi Hiz) //.
    simpl. destruct one_hot; [|by eexists].
    destruct (to_categorical_returns
                (NdArray [length lbuf - 8] (uint8 <$> drop 8 lbuf)) 10) as [y ->].
    { simpl. apply Forall_fmap. eapply Forall_impl; [by apply Hlbls|].
      intros b Hb. simpl in *. pose proof (uint8_range b). lia. }
    by eexists.
Qed.

(** X15. With [one_hot] set a label byte of 10 or more makes the call fail
    with [IndexError], in [to_categorical], although the files decode and
    agree in size. *)
Theorem load_mnist_label_out_of_range path kind normalize return_4d_tensor
    lraw lbuf iraw ibuf :
  fs !! labels_path path kind = Some lraw → gunzip lraw = Some lbuf →
  fs !! images_path path kind = Some iraw → gunzip iraw = Some ibuf →
  8 ≤ length lbuf → 16 ≤ length ibuf →
  length ibuf - 16 = (length lbuf - 8) * 784 →
  Exists (λ b, (10 ≤ uint8 b)%Z) (drop 8 lbuf) →
  load_mnist fs gunzip path kind normalize return_4d_tensor true = inl IndexError.
Proof.
  intros Hl Hlz Hi Hiz Hl8 Hi16 Hsize Hbad.
  rewrite (load_mnist_run fs gunzip _ _ _ _ _ _ _ _ _ Hl Hlz Hi Hiz) //.
  simpl. rewrite to_categorical_raises //. simpl.
  apply Exists_fmap. eapply Exists_impl; [exact Hbad|]. intros b ?. simpl in *. lia.
Qed.

(** X16. A decoded file that is shorter than its header makes the call fail
    with [ValueError]: fewer than 8 bytes of labels, or, the labels read,
    fewer than 16 bytes of images. *)
Theorem load_mnist_short_file path kind normalize return_4d_tensor one_hot
    lraw lbuf :
  fs !! labels_path path kind = Some lraw → gunzip lraw = Some lbuf →
  (length lbuf < 8 →
   load_mnist fs gunzip path kind normalize return_4d_tensor one_hot
     = inl ValueError) ∧
  (∀ iraw ibuf,
     8 ≤ length lbuf →
     fs !! images_path path kind = Some iraw → gunzip iraw = Some ibuf →
     length ibuf < 16 →
     load_mnist fs gunzip path kind normalize return_4d_tensor one_hot
       = inl ValueError).
Proof.
  intros Hl Hlz. unfold load_mnist, gzip_read. rewrite Hl Hlz. simpl. split.
  - intros Hshort. unfold frombuffer. rewrite decide_False //. lia.
  - intros iraw ibuf Hl8 -> -> Hshort. unfold frombuffer at 1.
    rewrite decide_True //=. unfold frombuffer. rewrite decide_False //. lia.
Qed.

End LoaderExtras.

(** X17. The call reads the two files of the split and no other: on two file
    systems that hold the same two files it returns the same. *)
Theorem load_mnist_reads_two_files (fs fs' : gmap string (list byte)) gunzip
    path kind normalize return_4d_tensor one_hot :
  fs !! labels_path path kind = fs' !! labels_path path kind →
  fs !! images_path path kind = fs' !! images_path path kind →
  load_mnist fs gunzip path kind normalize return_4d_tensor one_hot
  = load_mnist fs' gunzip path kind normalize return_4d_tensor one_hot.
Proof. intros Hl Hi. unfold load_mnist, gzip_read. by rewrite Hl Hi. Qed.

(** * From the loader to the sampler *)

Section LoadThenSplit.
Context `{R : Random} (HR : sample_contract R).
Context (fs : gmap string (list byte)).
Context (gunzip : list byte → option (list byte)).

Lemma first_axis_sizes {A} (a : ndarray A) size :
  foldr Nat.mul 1 (tail (shape a)) = size → length (data a) = len a * size →
  Forall (λ r, length (data r) = size) (first_axis a).
Proof.
  intros Hsize Hlen. apply Forall_fmap, Forall_forall. intros i Hi%elem_of_seq.
  unfold item_at. simpl. rewrite length_take length_drop Hlen Hsize. nia.
Qed.

Lemma split_and_select_random_data_returns {X} (x xtest : list X) y ytest ntc k g :
  one_hot y →
  length x = length (rows y) → length xtest = length (rows ytest) →
  width y ≤ width ytest →
  (1 ≤ ntc ≤ Z.of_nat (width y))%Z → (0 ≤ k)%Z →
  (∀ cs g1, random_sample (width y) ntc g = inr (cs, g1) →
     Forall (λ c, (k ≤ Z.of_nat (length (rows_of_class c x y)))%Z) cs) →
  ∃ out g', split_and_select_random_data x y xtest ytest ntc k g = inr (out, g').
Proof.
  intros Hy Hlen Hlent Hw Hntc Hk Hcount.
  destruct (sample_in_range HR (width y) ntc g) as (cs & g1 & Hcs); [lia|].
  destruct (sample_inv HR _ _ _ _ _ Hcs) as (_ & Hlencs & Hnd & Hrange).
  rewrite (split_and_select_random_data_run HR _ _ _ _ _ _ _ cs g1) //;
    last first.
  { eapply Forall_impl; [exact Hrange|]. intros c ?. simpl in *. lia. }
  apply after_draw_returns; try done.
  - intros ->. simpl in Hlencs. lia.
  - specialize (Hcount cs g1 Hcs). rewrite Forall_forall in Hcount.
    rewrite Forall_forall in Hrange. apply Forall_forall. intros c Hc.
    rewrite class_rows_one_hot //; [|by apply Hrange].
    specialize (Hcount c Hc). simpl in *. lia.
Qed.

Lemma loaded_rows path kind normalize return_4d_tensor imgs y :
  load_mnist fs gunzip path kind normalize return_4d_tensor true
    = inr (imgs, OneHot y) →
  one_hot y ∧ width y = 10 ∧ length (image_rows imgs) = length (rows y) ∧
  Forall (λ r, pixels_size r = 784) (image_rows imgs).
Proof.
  intros (lraw & lbuf & iraw & ibuf & _ & _ & _ & _ & Hl8 & Hi16 & Hsize & -> & Hlbls)
    %load_mnist_inv.
  simpl in Hlbls. destruct Hlbls as (y' & Hy & ?). simplify_eq.
  apply to_categorical_one_hot in Hy as (Hw & Hn & Hoh).
  rewrite /shape0 /= length_fmap length_drop in Hn.
  split_and!; [done..| |].
  - destruct normalize, return_4d_tensor; simpl;
      by rewrite /first_axis /len /= !length_fmap length_seq.
  - destruct normalize, return_4d_tensor; simpl; apply Forall_fmap;
      apply (first_axis_sizes _ 784); try done;
      rewrite /len /= ?length_fmap length_drop; lia.
Qed.

(** X18. The arrays of two one-hot loads fit the sampler.  The labels are
    one-hot with 10 columns, there is one image of 784 pixels for each label
    row, and the sampler, called on the images and labels of a training and
    a test load, returns whenever between 1 and 10 classes are asked for and
    no drawn class has fewer training rows than examples asked for. *)
Theorem loaded_data_can_be_split path kind kind' normalize return_4d_tensor
    imgs y imgs' y' ntc k g :
  load_mnist fs gunzip path kind normalize return_4d_tensor true
    = inr (imgs, OneHot y) →
  load_mnist fs gunzip path kind' normalize return_4d_tensor true
    = inr (imgs', OneHot y') →
  one_hot y ∧ width y = 10 ∧
  length (image_rows imgs) = shape0 y ∧
  Forall (λ r, pixels_size r = 784) (image_rows imgs) ∧
  ((1 ≤ ntc ≤ 10)%Z → (0 ≤ k)%Z →
   (∀ cs g1, random_sample 10 ntc g = inr (cs, g1) →
      Forall (λ c, (k ≤ Z.of_nat (length (rows_of_class c (image_rows imgs) y)))%Z)
        cs) →
   ∃ out g',
     split_and_select_random_data (image_rows imgs) y (image_rows imgs') y'
       ntc k g = inr (out, g')).
Proof.
  intros (Hy & Hw & Hlen & Hsize)%loaded_rows (Hy' & Hw' & Hlen' & _)%loaded_rows.
  split_and!; try done. intros Hntc Hk Hcount.
  apply split_and_select_random_data_returns; try done; rewrite ?Hw ?Hw' //.
Qed.

End LoadThenSplit.

(** * More runs of the scenario *)

Section MoreRuns.
Import PoolSampler Scenario Scenario2.

Lemma no_class_requested_witness :
  run_split train_images train_labels 0%Z 2%Z = inl IndexError.
Proof.
  apply (no_class_requested pool_sample_contract train_images train_labels
           test_images test_labels 2%Z tape); reflexivity.
Defined.

Lemma negative_counts_witness :
  run_split train_images train_labels (-1)%Z 2%Z = inl ValueError ∧
  run_split train_images train_labels 3%Z (-1)%Z = inl ValueError.
Proof.
  destruct (negative_counts pool_sample_contract train_images train_labels
              test_images test_labels (-1)%Z 2%Z tape) as [H1 _].
  destruct (negative_counts pool_sample_contract train_images train_labels
              test_images test_labels 3%Z (-1)%Z tape) as [_ H2].
  split; [apply H1; lia|apply H2; compute_done].
Defined.

(** One training image more than there are label rows. *)
Lemma shape_mismatch_witness :
  run_split train_images_multi train_labels 3%Z 2%Z = inl IndexError.
Proof.
  refine (proj1 (shape_mismatch pool_sample_contract train_images_multi
                   train_labels test_images test_labels 3%Z 2%Z tape _ _ _) _);
    [vm_compute; reflexivity|compute_done].
Defined.

Lemma auxiliary_and_test_keep_order_witness :
  ∃ out g',
    run_split train_images train_labels 3%Z 2%Z = inr (out, g') ∧
    zip (x_auxiliary out) (rows (y_auxiliary out))
      `sublist_of` zip train_images (rows train_labels) ∧
    zip (x_test out) (rows (y_test out))
      `sublist_of` zip test_images (rows test_labels).
Proof.
  eexists _, _. split; [vm_compute; reflexivity|].
  match goal with |- zip (x_auxiliary ?o) _ `sublist_of` _ ∧ _ =>
    destruct (auxiliary_and_test_keep_order pool_sample_contract
                train_images train_labels test_images test_labels 3%Z 2%Z tape o [])
      as (_ & _ & _ & _ & _ & Haux & Htest)
  end; [vm_compute; reflexivity|].
  split; [exact Haux|exact Htest].
Defined.

Lemma unlabeled_keeps_order_witness :
  ∃ out g',
    run_split train_images train_labels 3%Z 2%Z = inr (out, g') ∧
    ∃ cs g1 blocks,
      random_sample (width train_labels) 3%Z tape = inr (cs, g1) ∧
      x_target_unlabeled out = concat blocks ∧
      Forall2 (λ c b,
        b `sublist_of` (class_rows c cs train_images train_labels).*1 ∧
        (class_rows c cs train_images train_labels).*1 `sublist_of` train_images ∧
        length b + Z.to_nat 2 = length (class_rows c cs train_images train_labels))
        cs blocks.
Proof.
  eexists _, _. split; [vm_compute; reflexivity|].
  apply (unlabeled_keeps_order pool_sample_contract train_images train_labels
           test_images test_labels 3%Z 2%Z tape _ []).
  vm_compute. reflexivity.
Defined.

Lemma zero_examples_per_class_witness :
  ∃ out g',
    run_split train_images train_labels 3%Z 0%Z = inr (out, g') ∧
    x_target_labeled out = [] ∧ length (x_target_unlabeled out) = 30.
Proof.
  destruct (zero_examples_per_class pool_sample_contract train_images
              train_labels test_images test_labels 3%Z tape) as [Hzero Hret].
  destruct Hret as (out & g' & Hcall); [reflexivity|reflexivity|compute_done..|].
  exists out, g'. split; [exact Hcall|].
  destruct (Hzero out g' Hcall) as (cs & g1 & Hcs & Hxl & _ & Hxu).
  split; [exact Hxl|]. vm_compute in Hcs. simplify_eq. rewrite Hxu.
  vm_compute. reflexivity.
Defined.

Lemma all_classes_selected_witness :
  one_hot train_labels ∧
  ∃ out g',
    run_split train_images train_labels 10%Z 0%Z = inr (out, g') ∧
    x_auxiliary out = [] ∧ rows (y_auxiliary out) = [] ∧
    x_target_labeled out ++ x_target_unlabeled out ≡ₚ train_images.
Proof.
  assert (one_hot train_labels) as Hy by compute_done.
  split; [exact Hy|].
  eexists _, _. split; [vm_compute; reflexivity|].
  apply (all_classes_selected pool_sample_contract train_images train_labels
           test_images test_labels 0%Z tape _ [] Hy).
  vm_compute. reflexivity.
Defined.

Lemma row_of_no_class_is_dropped_witness :
  NoDup train_images_odd ∧
  ∃ out g',
    run_split train_images_odd train_labels_odd 3%Z 2%Z = inr (out, g') ∧
    (100 ∉ x_target_labeled out) ∧ (100 ∉ x_target_unlabeled out) ∧
    (100 ∉ x_auxiliary out).
Proof.
  assert (NoDup train_images_odd) as Hx by compute_done.
  split; [exact Hx|].
  eexists _, _. split; [vm_compute; reflexivity|].
  match goal with |- (_ ∉ x_target_labeled ?o) ∧ _ =>
    destruct (row_of_no_class_is_dropped pool_sample_contract
                train_images_odd train_labels_odd test_images test_labels
                3%Z 2%Z tape o [] Hx)
      as (cs & g1 & Hcs & Hrow)
  end; [vm_compute; reflexivity|].
  vm_compute in Hcs. simplify_eq.
  apply (Hrow 100 100 odd_row); [reflexivity..|compute_done|compute_done].
Defined.

Lemma test_set_is_independent_witness :
  ∃ out g' out',
    run_split train_images train_labels 3%Z 2%Z = inr (out, g') ∧
    split_and_select_random_data (R := pool_random) train_images train_labels
      other_test_images other_test_labels 3%Z 2%Z tape = inr (out', g') ∧
    x_target_labeled out' = x_target_labeled out ∧
    y_target out' = y_target out ∧
    x_target_unlabeled out' = x_target_unlabeled out ∧
    x_auxiliary out' = x_auxiliary out ∧
    y_auxiliary out' = y_auxiliary out.
Proof.
  eexists _, _.
  match goal with |- ∃ out', ?call = inr (?o, ?g) ∧ _ =>
    assert (call = inr (o, g)) as Hcall by (vm_compute; reflexivity)
  end.
  destruct (test_set_is_independent pool_sample_contract train_images
              train_labels test_images test_labels other_test_images
              other_test_labels 3%Z 2%Z tape _ _ Hcall) as (out' & Hcall' & Heq);
    [reflexivity|compute_done|].
  exists out'. split; [exact Hcall|]. split; [exact Hcall'|exact Heq].
Defined.

(** The class 12 of labels of 10 columns, labels of a hundred rows for
    a hundred and one images, twelve examples of a class of ten rows, and two
    examples of it. *)
Lemma get_random_labeled_examples_errors_witness :
  get_random_labeled_examples (R := pool_random) train_images train_labels
    12 2%Z tape = inl IndexError ∧
  get_random_labeled_examples (R := pool_random) train_images_multi train_labels
    3 2%Z tape = inl IndexError ∧
  get_random_labeled_examples (R := pool_random) train_images train_labels
    3 12%Z tape = inl ValueError ∧
  ∃ r g', get_random_labeled_examples (R := pool_random) train_images
            train_labels 3 2%Z tape = inr (r, g').
Proof.
  destruct (get_random_labeled_examples_errors pool_sample_contract
              train_images train_labels 12 2%Z tape) as (H1 & _).
  destruct (get_random_labeled_examples_errors pool_sample_contract
              train_images_multi train_labels 3 2%Z tape) as (_ & H2 & _).
  destruct (get_random_labeled_examples_errors pool_sample_contract
              train_images train_labels 3 12%Z tape) as (_ & _ & H3 & _).
  destruct (get_random_labeled_examples_errors pool_sample_contract
              train_images train_labels 3 2%Z tape) as (_ & _ & _ & H4).
  split_and!.
  - apply H1. compute_done.
  - apply H2; compute_done.
  - apply H3; [compute_done|reflexivity|]. vm_compute. intros [_ H]. by apply H.
  - apply H4; [compute_done|reflexivity|]. vm_compute. split; discriminate.
Defined.

Lemma get_random_labeled_examples_result_witness :
  ∃ xl yl xu g',
    get_random_labeled_examples (R := pool_random) train_images train_labels
      3 2%Z tape = inr ((xl, yl, xu), g') ∧
    length xl = 2 ∧ length xl + length xu = 10 ∧
    xu `sublist_of` train_images.
Proof.
  eexists _, _, _, _. split; [vm_compute; reflexivity|].
  match goal with |- length ?xl = _ ∧ length _ + length ?xu = _ ∧ _ =>
    destruct (get_random_labeled_examples_result pool_sample_contract
                train_images train_labels 3 2%Z tape xl
                (Array2 10 (replicate 2 (to_categorical_row 10 3))) xu [12; 5; 0; 9; 4; 1; 8])
      as (Hk & _ & _ & _ & Hsub & _ & Hsum)
  end; [vm_compute; reflexivity|].
  split; [exact Hk|]. split; [|exact Hsub]. vm_compute. reflexivity.
Defined.

Lemma load_mnist_shapes_witness :
  ∃ imgs lbls,
    load_mnist files gunzip "data" "train" true true true = inr (imgs, lbls) ∧
    pixels_shape imgs = [2; 28; 28; 1] ∧ pixels_size imgs = 2 * 784 ∧
    labels_len lbls = 2.
Proof.
  eexists _, _. split; [vm_compute; reflexivity|].
  match goal with |- pixels_shape ?i = _ ∧ _ ∧ labels_len ?l = _ =>
    destruct (load_mnist_shapes files gunzip "data" "train" true true true i l)
      as (Hshape & Hsize & _)
  end; [vm_compute; reflexivity|].
  split; [exact Hshape|]. split; [exact Hsize|]. vm_compute. reflexivity.
Defined.

Lemma load_mnist_decodes_witness :
  load_mnist files gunzip "data" "train" false false false =
    inr (UInt8 (NdArray [2; 784] (uint8 <$> replicate 784 xff ++ replicate 784 x00)),
         ClassIndices (NdArray [2] (uint8 <$> [x03; x09]))).
Proof.
  apply (load_mnist_decodes files gunzip "data" "train" false
           labels_file images_file (replicate 8 x00) (replicate 16 x00)
           [x03; x09] (replicate 784 xff ++ replicate 784 x00));
    vm_compute; reflexivity.
Defined.

Lemma load_mnist_label_out_of_range_witness :
  load_mnist bad_label_files gunzip "data" "train" true true true = inl IndexError ∧
  ∃ r, load_mnist bad_label_files gunzip "data" "train" true true false = inr r.
Proof.
  split.
  - apply (load_mnist_label_out_of_range bad_label_files gunzip "data" "train"
             true true bad_labels_file (replicate 8 x00 ++ [x03; x0a]) images_file
             (replicate 16 x00 ++ replicate 784 xff ++ replicate 784 x00));
      try (vm_compute; reflexivity); compute_done.
  - eexists. vm_compute. reflexivity.
Defined.

Lemma load_mnist_short_file_witness :
  load_mnist cut_files gunzip "data" "train" true true true = inl ValueError ∧
  load_mnist cut_image_files gunzip "data" "train" true true true = inl ValueError.
Proof.
  destruct (load_mnist_short_file cut_files gunzip "data" "train" true true true
              cut_labels_file (replicate 5 x00)) as [Hlabels _];
    [vm_compute; reflexivity..|].
  destruct (load_mnist_short_file cut_image_files gunzip "data" "train" true
              true true labels_file (replicate 8 x00 ++ [x03; x09]))
    as [_ Himages]; [vm_compute; reflexivity..|].
  split; [apply Hlabels; compute_done|].
  apply (Himages cut_images_file (replicate 10 x00));
    [compute_done|vm_compute; reflexivity..|compute_done].
Defined.

Lemma load_mnist_returns_iff_witness :
  ∃ lraw lbuf iraw ibuf,
    files !! labels_path "data" "train" = Some lraw ∧ gunzip lraw = Some lbuf ∧
    files !! images_path "data" "train" = Some iraw ∧ gunzip iraw = Some ibuf ∧
    8 ≤ length lbuf ∧ 16 ≤ length ibuf ∧
    length ibuf - 16 = (length lbuf - 8) * 784 ∧
    (true = true → Forall (λ b, (uint8 b < 10)%Z) (drop 8 lbuf)).
Proof.
  apply (proj1 (load_mnist_returns_iff files gunzip "data" "train" true true true)).
  eexists. vm_compute. reflexivity.
Defined.


Lemma load_mnist_reads_two_files_witness :
  load_mnist both_files gunzip "data" "train" true true true
  = load_mnist files gunzip "data" "train" true true true.
Proof.
  apply load_mnist_reads_two_files; vm_compute; reflexivity.
Defined.

(** The files of a training and of a test split, loaded and split: one class
    and one example of it. *)
Lemma loaded_data_can_be_split_witness :
  ∃ imgs y imgs' y',
    load_mnist both_files gunzip "data" "train" true true true
      = inr (imgs, OneHot y) ∧
    load_mnist both_files gunzip "data" "test" true true true
      = inr (imgs', OneHot y') ∧
    ∃ out g',
      split_and_select_random_data (R := pool_random)
        (image_rows imgs) y (image_rows imgs') y' 1%Z 1%Z [3; 0]
        = inr (out, g').
Proof.
  eexists _, _, _, _.
  split; [vm_compute; reflexivity|]. split; [vm_compute; reflexivity|].
  eapply (loaded_data_can_be_split pool_sample_contract both_files gunzip
            "data" "train" "test" true true);
    [vm_compute; reflexivity|vm_compute; reflexivity|lia|lia|].
  intros cs g1 Hcs. vm_compute in Hcs. simplify_eq.
  constructor; [|constructor]. vm_compute. discriminate.
Defined.

End MoreRuns.
